(** * IS31FL3733 "simple" LED-matrix driver: shadow buffers and their flush

    A shallow embedding of [drivers/led/issi/is31fl3733-simple.c].

    The C file keeps five global arrays (the I2C transfer buffer, the PWM and
    LED-control shadow pages, and one "update required" flag per page and
    device).  They are the fields of [world] below, next to the state of the
    I2C bus.  Every driver function is a computation in a small monad that
    threads the world, collects the bus transactions it performed, and
    faults on an access outside an array (undefined behaviour in C). *)

From Stdlib Require Import ZArith List Lia Bool.
From stdpp Require Import base tactics option list.
Import ListNotations.

#[local] Open Scope Z_scope.

(** ** Machine integers *)

(** Conversion to [uint8_t]. *)
Definition uint8 (x : Z) : Z := x mod 256.

Definition is_byte (x : Z) : Prop := 0 <= x < 256.

(** ** Board description *)

(** [is31_led] of the driver header: the device an LED hangs off and the
    register offset of the LED inside a page. *)
Record is31_led : Type := { driver : Z; v : Z }.

(** ** Bus transactions *)

(** One call of [i2c_transmit], with the status it returned. *)
Record i2c_call : Type := {
  tx_address : Z;
  tx_data : list Z;
  tx_timeout : Z;
  tx_status : Z
}.

(** ** Faults *)

Inductive fault : Type :=
| OutOfBounds   (* an array indexed outside its declared size *)
| OutOfFuel.    (* a loop that did not finish within its iteration budget *)

(** ** Array accesses with C indices *)

Definition index_get {A : Type} (l : list A) (i : Z) : option A :=
  if bool_decide (0 <= i) then l !! Z.to_nat i else None.

Definition index_set {A : Type} (l : list A) (i : Z) (x : A) : option (list A) :=
  if bool_decide (0 <= i < Z.of_nat (length l))
  then Some (<[Z.to_nat i := x]> l) else None.

(** [memcpy(dst + doff, src + soff, n)] on arrays of bytes. *)
Definition memcpy (dst : list Z) (doff : Z) (src : list Z) (soff n : Z)
  : option (list Z) :=
  if bool_decide (0 <= doff /\ 0 <= soff /\ 0 <= n
                  /\ doff + n <= Z.of_nat (length dst)
                  /\ soff + n <= Z.of_nat (length src))
  then Some (take (Z.to_nat doff) dst
             ++ take (Z.to_nat n) (drop (Z.to_nat soff) src)
             ++ drop (Z.to_nat (doff + n)) dst)
  else None.

(** ** Register map and build-time defaults of the driver *)

Definition IS31FL3733_COMMANDREGISTER : Z := 0xFD.
Definition IS31FL3733_COMMANDREGISTER_WRITELOCK : Z := 0xFE.
Definition IS31FL3733_PAGE_LEDCONTROL : Z := 0x00.
Definition IS31FL3733_PAGE_PWM : Z := 0x01.
Definition IS31FL3733_I2C_TIMEOUT : Z := 100.
(** Neither the driver default nor the board's [config.h] repeats a
    transfer. *)
Definition IS31FL3733_I2C_PERSISTENCE : Z := 0.

Definition IS31FL3733_PAGE_FUNCTION : Z := 0x03.
Definition IS31FL3733_REG_CONFIGURATION : Z := 0x00.
Definition IS31FL3733_REG_GLOBALCURRENT : Z := 0x01.
Definition IS31FL3733_REG_SWPULLUP : Z := 0x0F.
Definition IS31FL3733_REG_CSPULLUP : Z := 0x10.
(** The driver default; the board's [config.h] does not override it. *)
Definition IS31FL3733_GLOBALCURRENT : Z := 0xFF.

(** ** What the driver takes from outside *)

(** The I2C master: a bus has some state of its own and answers each
    transmission (address, bytes, timeout) with a status, [0] meaning
    success. *)
Class i2c_master : Type := {
  bus_state : Type;
  bus_transmit : bus_state -> Z -> list Z -> Z -> bus_state * Z
}.

(** Board configuration: number of devices, number of LEDs, and the table
    [g_is31_leds] that places each LED. *)
Class board : Type := {
  IS31FL3733_DRIVER_COUNT : Z;
  LED_MATRIX_LED_COUNT : Z;
  g_is31_leds : list is31_led
}.

(** Chip settings whose values come from the driver header: the PWM
    frequency selector and the two de-ghosting resistor selectors. *)
Class chip_settings : Type := {
  IS31FL3733_PWM_FREQUENCY : Z;
  IS31FL3733_SWPULLUP : Z;
  IS31FL3733_CSPULLUP : Z
}.

Section Driver.

Context {i2c : i2c_master} {brd : board}.

(** ** Global state *)

Record world : Type := {
  g_twi_transfer_buffer : list Z;                          (* [20] *)
  g_pwm_buffer : list (list Z);                            (* [DRIVER_COUNT][192] *)
  g_pwm_buffer_update_required : list bool;                (* [DRIVER_COUNT] *)
  g_led_control_registers : list (list Z);                 (* [DRIVER_COUNT][24] *)
  g_led_control_registers_update_required : list bool;     (* [DRIVER_COUNT] *)
  bus : bus_state
}.

Definition with_twi (w : world) (x : list Z) : world :=
  {| g_twi_transfer_buffer := x;
     g_pwm_buffer := g_pwm_buffer w;
     g_pwm_buffer_update_required := g_pwm_buffer_update_required w;
     g_led_control_registers := g_led_control_registers w;
     g_led_control_registers_update_required :=
       g_led_control_registers_update_required w;
     bus := bus w |}.

Definition with_pwm (w : world) (x : list (list Z)) : world :=
  {| g_twi_transfer_buffer := g_twi_transfer_buffer w;
     g_pwm_buffer := x;
     g_pwm_buffer_update_required := g_pwm_buffer_update_required w;
     g_led_control_registers := g_led_control_registers w;
     g_led_control_registers_update_required :=
       g_led_control_registers_update_required w;
     bus := bus w |}.

Definition with_pwm_required (w : world) (x : list bool) : world :=
  {| g_twi_transfer_buffer := g_twi_transfer_buffer w;
     g_pwm_buffer := g_pwm_buffer w;
     g_pwm_buffer_update_required := x;
     g_led_control_registers := g_led_control_registers w;
     g_led_control_registers_update_required :=
       g_led_control_registers_update_required w;
     bus := bus w |}.

Definition with_control (w : world) (x : list (list Z)) : world :=
  {| g_twi_transfer_buffer := g_twi_transfer_buffer w;
     g_pwm_buffer := g_pwm_buffer w;
     g_pwm_buffer_update_required := g_pwm_buffer_update_required w;
     g_led_control_registers := x;
     g_led_control_registers_update_required :=
       g_led_control_registers_update_required w;
     bus := bus w |}.

Definition with_control_required (w : world) (x : list bool) : world :=
  {| g_twi_transfer_buffer := g_twi_transfer_buffer w;
     g_pwm_buffer := g_pwm_buffer w;
     g_pwm_buffer_update_required := g_pwm_buffer_update_required w;
     g_led_control_registers := g_led_control_registers w;
     g_led_control_registers_update_required := x;
     bus := bus w |}.

Definition with_bus (w : world) (x : bus_state) : world :=
  {| g_twi_transfer_buffer := g_twi_transfer_buffer w;
     g_pwm_buffer := g_pwm_buffer w;
     g_pwm_buffer_update_required := g_pwm_buffer_update_required w;
     g_led_control_registers := g_led_control_registers w;
     g_led_control_registers_update_required :=
       g_led_control_registers_update_required w;
     bus := x |}.

(** ** The driver monad *)

Inductive outcome (A : Type) : Type :=
| Ok (a : A) (w : world) (tr : list i2c_call)
| Fault (f : fault).
Arguments Ok {A} a w tr.
Arguments Fault {A} f.

Definition M (A : Type) : Type := world -> outcome A.

Definition ret {A : Type} (a : A) : M A := fun w => Ok a w [].

Definition bind {A C : Type} (m : M A) (k : A -> M C) : M C :=
  fun w =>
    match m w with
    | Ok a w1 t1 =>
        match k a w1 with
        | Ok c w2 t2 => Ok c w2 (t1 ++ t2)
        | Fault f => Fault f
        end
    | Fault f => Fault f
    end.

Definition get : M world := fun w => Ok w w [].
Definition put (w : world) : M unit := fun _ => Ok tt w [].
Definition abort {A : Type} (f : fault) : M A := fun _ => Fault f.

(** An array access that misses the array is undefined behaviour. *)
Definition checked {A : Type} (o : option A) : M A :=
  match o with
  | Some a => ret a
  | None => abort OutOfBounds
  end.

#[local] Notation "x <- m ;; k" := (bind m (fun x => k))
  (at level 100, m at next level, right associativity).
#[local] Notation "m ;;; k" := (bind m (fun _ => k))
  (at level 100, right associativity).

(** [for (i = i0; cond i; i = next i) body], where the body may leave the
    enclosing function with [return x] (the body then yields [Some x]).
    The loop yields [None] when it runs to its end. *)
Fixpoint for_loop {R : Type} (fuel : nat) (i : Z) (cond : Z -> bool)
    (next : Z -> Z) (body : Z -> M (option R)) : M (option R) :=
  match fuel with
  | O => abort OutOfFuel
  | S fuel' =>
      if cond i then
        r <- body i ;;
        match r with
        | Some x => ret (Some x)
        | None => for_loop fuel' (next i) cond next body
        end
      else ret None
  end.

(** The value a function returns after a loop: the loop's own [return], or
    else what follows the loop. *)
Definition returned {R : Type} (r : option R) (otherwise : M R) : M R :=
  match r with
  | Some x => ret x
  | None => otherwise
  end.

(** ** Accessors of the global arrays *)

Definition twi_store (i x : Z) : M unit :=
  w <- get ;;
  buf <- checked (index_set (g_twi_transfer_buffer w) i x) ;;
  put (with_twi w buf).

Definition pwm_load (d off : Z) : M Z :=
  w <- get ;;
  row <- checked (index_get (g_pwm_buffer w) d) ;;
  checked (index_get row off).

Definition pwm_store (d off x : Z) : M unit :=
  w <- get ;;
  row <- checked (index_get (g_pwm_buffer w) d) ;;
  row' <- checked (index_set row off x) ;;
  pwm <- checked (index_set (g_pwm_buffer w) d row') ;;
  put (with_pwm w pwm).

Definition pwm_required_load (d : Z) : M bool :=
  w <- get ;; checked (index_get (g_pwm_buffer_update_required w) d).

Definition pwm_required_store (d : Z) (b : bool) : M unit :=
  w <- get ;;
  l <- checked (index_set (g_pwm_buffer_update_required w) d b) ;;
  put (with_pwm_required w l).

Definition control_load (d r : Z) : M Z :=
  w <- get ;;
  row <- checked (index_get (g_led_control_registers w) d) ;;
  checked (index_get row r).

Definition control_store (d r x : Z) : M unit :=
  w <- get ;;
  row <- checked (index_get (g_led_control_registers w) d) ;;
  row' <- checked (index_set row r x) ;;
  regs <- checked (index_set (g_led_control_registers w) d row') ;;
  put (with_control w regs).

Definition control_required_load (d : Z) : M bool :=
  w <- get ;;
  checked (index_get (g_led_control_registers_update_required w) d).

Definition control_required_store (d : Z) (b : bool) : M unit :=
  w <- get ;;
  l <- checked (index_set (g_led_control_registers_update_required w) d b) ;;
  put (with_control_required w l).

(** ** The I2C master *)

(** [i2c_transmit(address, data, length, timeout)] of [i2c_master.h]: the
    first [length] bytes of [data] go to the 8-bit [address]; the call is
    recorded with the status the bus gave. *)
Definition i2c_transmit (address : Z) (data : list Z) (length timeout : Z)
  : M Z :=
  fun w =>
    if bool_decide (0 <= length <= Z.of_nat (List.length data)) then
      let payload := take (Z.to_nat length) data in
      let r := bus_transmit (bus w) (uint8 address) payload timeout in
      Ok (snd r) (with_bus w (fst r))
         [ {| tx_address := uint8 address; tx_data := payload;
              tx_timeout := timeout; tx_status := snd r |} ]
    else Fault OutOfBounds.

(** The transfer at the heart of both write functions:
    [#if IS31FL3733_I2C_PERSISTENCE > 0] repeats it, [#else] sends it once.
    Yields [Some false] where the C code says [return false]. *)
Definition transmit_twi (addr length : Z) : M (option bool) :=
  if 0 <? IS31FL3733_I2C_PERSISTENCE then
    for_loop (S (Z.to_nat IS31FL3733_I2C_PERSISTENCE)) 0
      (fun i => i <? IS31FL3733_I2C_PERSISTENCE)
      (fun i => uint8 (i + 1))
      (fun _ =>
         w <- get ;;
         st <- i2c_transmit (Z.shiftl addr 1) (g_twi_transfer_buffer w)
                 length IS31FL3733_I2C_TIMEOUT ;;
         if negb (st =? 0) then ret (Some false) else ret None)
  else
    w <- get ;;
    st <- i2c_transmit (Z.shiftl addr 1) (g_twi_transfer_buffer w)
            length IS31FL3733_I2C_TIMEOUT ;;
    if negb (st =? 0) then ret (Some false) else ret None.

(** ** The driver *)

Definition is31fl3733_write_register (addr reg data : Z) : M bool :=
  twi_store 0 reg ;;;
  twi_store 1 data ;;;
  r <- transmit_twi addr 2 ;;
  returned r (ret true).

(** Body of the loop of [is31fl3733_write_pwm_buffer], at offset [i]. *)
Definition write_pwm_buffer_body (addr : Z) (pwm_buffer : list Z) (i : Z)
  : M (option bool) :=
  twi_store 0 (uint8 i) ;;;
  w <- get ;;
  buf <- checked (memcpy (g_twi_transfer_buffer w) 1 pwm_buffer i 16) ;;
  put (with_twi w buf) ;;;
  transmit_twi addr 17.

Definition is31fl3733_write_pwm_buffer (addr : Z) (pwm_buffer : list Z)
  : M bool :=
  r <- for_loop 13 0 (fun i => i <? 192) (fun i => i + 16)
         (write_pwm_buffer_body addr pwm_buffer) ;;
  returned r (ret true).

Definition is31fl3733_set_value (index value : Z) : M unit :=
  if (0 <=? index) && (index <? LED_MATRIX_LED_COUNT) then
    led <- checked (index_get g_is31_leds index) ;;
    old <- pwm_load (driver led) (v led) ;;
    if old =? value then ret tt
    else
      pwm_store (driver led) (v led) value ;;;
      pwm_required_store (driver led) true
  else ret tt.

(** Body of the loop of [is31fl3733_set_value_all]. *)
Definition set_value_all_body (value i : Z) : M (option unit) :=
  is31fl3733_set_value i value ;;; ret None.

Definition is31fl3733_set_value_all (value : Z) : M unit :=
  r <- for_loop (S (Z.to_nat LED_MATRIX_LED_COUNT)) 0
         (fun i => i <? LED_MATRIX_LED_COUNT) (fun i => i + 1)
         (set_value_all_body value) ;;
  returned r (ret tt).

Definition is31fl3733_set_led_control_register (index : Z) (value : bool)
  : M unit :=
  led <- checked (index_get g_is31_leds index) ;;
  let control_register := uint8 (v led / 8) in
  let bit_value := uint8 (v led mod 8) in
  old <- control_load (driver led) control_register ;;
  (if value
   then control_store (driver led) control_register
          (uint8 (Z.lor old (Z.shiftl 1 bit_value)))
   else control_store (driver led) control_register
          (uint8 (Z.land old (Z.lnot (Z.shiftl 1 bit_value))))) ;;;
  control_required_store (driver led) true.

Definition is31fl3733_update_pwm_buffers (addr index : Z) : M unit :=
  required <- pwm_required_load index ;;
  if required then
    is31fl3733_write_register addr IS31FL3733_COMMANDREGISTER_WRITELOCK 0xC5 ;;;
    is31fl3733_write_register addr IS31FL3733_COMMANDREGISTER
      IS31FL3733_PAGE_PWM ;;;
    w <- get ;;
    row <- checked (index_get (g_pwm_buffer w) index) ;;
    ok <- is31fl3733_write_pwm_buffer addr row ;;
    (if negb ok then control_required_store index true else ret tt) ;;;
    pwm_required_store index false
  else ret tt.

(** Body of the loop of [is31fl3733_update_led_control_registers]. *)
Definition update_led_control_registers_body (addr index i : Z)
  : M (option unit) :=
  x <- control_load index i ;;
  is31fl3733_write_register addr (uint8 i) x ;;;
  ret None.

Definition is31fl3733_update_led_control_registers (addr index : Z)
  : M unit :=
  required <- control_required_load index ;;
  if required then
    is31fl3733_write_register addr IS31FL3733_COMMANDREGISTER_WRITELOCK 0xC5 ;;;
    is31fl3733_write_register addr IS31FL3733_COMMANDREGISTER
      IS31FL3733_PAGE_LEDCONTROL ;;;
    r <- for_loop 25 0 (fun i => i <? 24) (fun i => i + 1)
           (update_led_control_registers_body addr index) ;;
    returned r (control_required_store index false)
  else ret tt.

(** ** Reading the state *)

Definition pwm_at (w : world) (d off : Z) : option Z :=
  match index_get (g_pwm_buffer w) d with
  | Some row => index_get row off
  | None => None
  end.

Definition control_at (w : world) (d r : Z) : option Z :=
  match index_get (g_led_control_registers w) d with
  | Some row => index_get row r
  | None => None
  end.

Definition pwm_dirty (w : world) (d : Z) : option bool :=
  index_get (g_pwm_buffer_update_required w) d.

Definition control_dirty (w : world) (d : Z) : option bool :=
  index_get (g_led_control_registers_update_required w) d.

(** The arrays have their declared sizes. *)
Record wf (w : world) : Prop := {
  wf_twi : length (g_twi_transfer_buffer w) = 20%nat;
  wf_pwm : length (g_pwm_buffer w) = Z.to_nat IS31FL3733_DRIVER_COUNT;
  wf_pwm_rows : Forall (fun row => length row = 192%nat) (g_pwm_buffer w);
  wf_pwm_required :
    length (g_pwm_buffer_update_required w)
    = Z.to_nat IS31FL3733_DRIVER_COUNT;
  wf_control :
    length (g_led_control_registers w) = Z.to_nat IS31FL3733_DRIVER_COUNT;
  wf_control_rows :
    Forall (fun row => length row = 24%nat) (g_led_control_registers w);
  wf_control_required :
    length (g_led_control_registers_update_required w)
    = Z.to_nat IS31FL3733_DRIVER_COUNT
}.

(** The table has one entry per LED, each on an existing device and at a
    register offset of the 192-byte PWM page. *)
Definition board_ok : Prop :=
  0 <= LED_MATRIX_LED_COUNT
  /\ length g_is31_leds = Z.to_nat LED_MATRIX_LED_COUNT
  /\ Forall (fun led => 0 <= driver led < IS31FL3733_DRIVER_COUNT
                        /\ 0 <= v led < 192) g_is31_leds.

(** What a bus transfer leaves alone: everything but the transfer buffer
    (which keeps its size) and the bus. *)
Record frame (w w' : world) : Prop := {
  frame_twi :
    length (g_twi_transfer_buffer w') = length (g_twi_transfer_buffer w);
  frame_pwm : g_pwm_buffer w' = g_pwm_buffer w;
  frame_pwm_required :
    g_pwm_buffer_update_required w' = g_pwm_buffer_update_required w;
  frame_control : g_led_control_registers w' = g_led_control_registers w;
  frame_control_required :
    g_led_control_registers_update_required w'
    = g_led_control_registers_update_required w
}.

(** The transactions of a trace are the bus's own answers, in order. *)
Inductive bus_trace : bus_state -> list i2c_call -> bus_state -> Prop :=
| bus_trace_nil b : bus_trace b [] b
| bus_trace_cons b c tr b' :
    snd (bus_transmit b (tx_address c) (tx_data c) (tx_timeout c))
    = tx_status c ->
    bus_trace (fst (bus_transmit b (tx_address c) (tx_data c) (tx_timeout c)))
      tr b' ->
    bus_trace b (c :: tr) b'.

(** A computation that only talked to the bus. *)
Definition transfers (w : world) (tr : list i2c_call) (w' : world) : Prop :=
  frame w w' /\ bus_trace (bus w) tr (bus w').

Definition always_succeeds : Prop :=
  forall b a d t, snd (bus_transmit b a d t) = 0.

Definition acked (c : i2c_call) : Prop := tx_status c = 0.

(** The transfer of one register write. *)
Definition register_call (addr reg data st : Z) : i2c_call :=
  {| tx_address := uint8 (Z.shiftl addr 1); tx_data := [reg; data];
     tx_timeout := IS31FL3733_I2C_TIMEOUT; tx_status := st |}.

(** The transfer of the [j]-th 16-byte chunk of a PWM page: the register
    offset [16 * j], then the 16 bytes stored from there. *)
Definition chunk_call (addr : Z) (pwm_buffer : list Z) (j : nat) (st : Z)
  : i2c_call :=
  {| tx_address := uint8 (Z.shiftl addr 1);
     tx_data := Z.of_nat (16 * j)
                :: take 16 (drop (16 * j) pwm_buffer);
     tx_timeout := IS31FL3733_I2C_TIMEOUT; tx_status := st |}.

(** A block write that starts at chunk [j] with [n] chunks to go: it sends
    chunk after chunk while they are acknowledged, and stops, reporting
    [false], at the first that is not. *)
Inductive block_write (addr : Z) (pwm_buffer : list Z)
  : nat -> nat -> bool -> list i2c_call -> Prop :=
| block_write_done j : block_write addr pwm_buffer j 0 true []
| block_write_fail j n st :
    st <> 0 ->
    block_write addr pwm_buffer j (S n) false
      [chunk_call addr pwm_buffer j st]
| block_write_next j n r tr :
    block_write addr pwm_buffer (S j) n r tr ->
    block_write addr pwm_buffer j (S n) r
      (chunk_call addr pwm_buffer j 0 :: tr).

(** Register writes that send the bytes of a page one by one, to the
    registers [i], [i + 1], ... in this order, whatever the bus answers. *)
Inductive register_writes (addr : Z) : Z -> list Z -> list i2c_call -> Prop :=
| register_writes_nil i : register_writes addr i [] []
| register_writes_cons i x st row tr :
    register_writes addr (i + 1) row tr ->
    register_writes addr i (x :: row) (register_call addr i x st :: tr).

(** Unlock of the command register, then selection of a page. *)
Definition select_page (addr page st1 st2 : Z) : list i2c_call :=
  [ register_call addr IS31FL3733_COMMANDREGISTER_WRITELOCK 0xC5 st1;
    register_call addr IS31FL3733_COMMANDREGISTER page st2 ].

(** The globals at startup: zero-initialised. *)
Definition initial_world (b : bus_state) : world :=
  {| g_twi_transfer_buffer := replicate 20 0;
     g_pwm_buffer :=
       replicate (Z.to_nat IS31FL3733_DRIVER_COUNT) (replicate 192 0);
     g_pwm_buffer_update_required :=
       replicate (Z.to_nat IS31FL3733_DRIVER_COUNT) false;
     g_led_control_registers :=
       replicate (Z.to_nat IS31FL3733_DRIVER_COUNT) (replicate 24 0);
     g_led_control_registers_update_required :=
       replicate (Z.to_nat IS31FL3733_DRIVER_COUNT) false;
     bus := b |}.

(** ** Sequences of calls into the driver *)

Inductive op : Type :=
| SetValue (index value : Z)
| SetValueAll (value : Z)
| SetControl (index : Z) (value : bool)
| FlushPwm (addr index : Z)
| FlushControl (addr index : Z).

Definition exec (o : op) : M unit :=
  match o with
  | SetValue index value => is31fl3733_set_value index value
  | SetValueAll value => is31fl3733_set_value_all value
  | SetControl index value => is31fl3733_set_led_control_register index value
  | FlushPwm addr index => is31fl3733_update_pwm_buffers addr index
  | FlushControl addr index =>
      is31fl3733_update_led_control_registers addr index
  end.


(** The bytes of a page that a block write put on the wire: the payloads
    of its transfers without their leading register offset. *)
Definition wire_page (tr : list i2c_call) : list Z :=
  concat (map (fun c => drop 1 (tx_data c)) tr).

(** What an observer of the bus knows about the pages of each device
    (devices are numbered as the rows of the shadow arrays), from the
    transfers alone: the contents of the last flush of the page all of whose
    transfers were acknowledged ([confirmed_]), and whether a flush of the
    page that ran after it had a transfer that was not ([failed_]). *)
Definition pages : Type := nat -> option (list Z).

Definition page_update (p : pages) (d : nat) (row : list Z) : pages :=
  fun d' => if Nat.eqb d' d then Some row else p d'.

Definition mark (f : nat -> bool) (d : nat) (b : bool) : nat -> bool :=
  fun d' => if Nat.eqb d' d then b else f d'.

Record ledger : Type := {
  confirmed_pwm : pages;
  confirmed_control : pages;
  failed_pwm : nat -> bool;
  failed_control : nat -> bool
}.

(** The ledger of a device in sync with the shadow pages of [w]. *)
Definition ledger_of (w : world) : ledger :=
  {| confirmed_pwm := fun d => g_pwm_buffer w !! d;
     confirmed_control := fun d => g_led_control_registers w !! d;
     failed_pwm := fun _ => false;
     failed_control := fun _ => false |}.

Definition all_acked (tr : list i2c_call) : bool :=
  forallb (fun c => tx_status c =? 0) tr.

(** What the transfers of a flush confirm: after the two transfers of the
    page selection, the bytes that went over the wire, when every transfer
    was acknowledged and the bytes make up a page of [size] registers. *)
Definition flush_outcome (size : nat) (tr : list i2c_call)
  : option (list Z) :=
  if all_acked tr && Nat.eqb (length (wire_page (drop 2 tr))) size
  then Some (wire_page (drop 2 tr))
  else None.

(** The ledger after call [o] produced trace [tr].  Only a flush that made
    transfers changes it: to the page it confirms, or else to a failure. *)
Definition observe (o : op) (tr : list i2c_call) (h : ledger) : ledger :=
  match o, tr with
  | FlushPwm _ d, _ :: _ =>
      match flush_outcome 192 tr with
      | Some page =>
          {| confirmed_pwm := page_update (confirmed_pwm h) (Z.to_nat d) page;
             confirmed_control := confirmed_control h;
             failed_pwm := mark (failed_pwm h) (Z.to_nat d) false;
             failed_control := failed_control h |}
      | None =>
          {| confirmed_pwm := confirmed_pwm h;
             confirmed_control := confirmed_control h;
             failed_pwm := mark (failed_pwm h) (Z.to_nat d) true;
             failed_control := failed_control h |}
      end
  | FlushControl _ d, _ :: _ =>
      match flush_outcome 24 tr with
      | Some page =>
          {| confirmed_pwm := confirmed_pwm h;
             confirmed_control :=
               page_update (confirmed_control h) (Z.to_nat d) page;
             failed_pwm := failed_pwm h;
             failed_control := mark (failed_control h) (Z.to_nat d) false |}
      | None =>
          {| confirmed_pwm := confirmed_pwm h;
             confirmed_control := confirmed_control h;
             failed_pwm := failed_pwm h;
             failed_control := mark (failed_control h) (Z.to_nat d) true |}
      end
  | _, _ => h
  end.

Fixpoint run (ops : list op) (w : world) (h : ledger)
  : option (world * ledger * list i2c_call) :=
  match ops with
  | [] => Some (w, h, [])
  | o :: ops' =>
      match exec o w with
      | Ok _ w1 t1 =>
          match run ops' w1 (observe o t1 h) with
          | Some (w2, h2, t2) => Some (w2, h2, t1 ++ t2)
          | None => None
          end
      | Fault _ => None
      end
  end.







(** ** The rest of the driver *)

Context {chip : chip_settings}.

(** The [#if IS31FL3733_I2C_PERSISTENCE > 0] branch of both write
    functions, for a build that sets the persistence count to
    [persistence]: the same transfer, repeated, given up at the first
    repetition that fails.  [transmit_twi] takes this branch at
    [IS31FL3733_I2C_PERSISTENCE]. *)
Definition transmit_twi_repeated (persistence addr length : Z)
  : M (option bool) :=
  for_loop (S (Z.to_nat persistence)) 0
    (fun i => i <? persistence)
    (fun i => uint8 (i + 1))
    (fun _ =>
       w <- get ;;
       st <- i2c_transmit (Z.shiftl addr 1) (g_twi_transfer_buffer w)
               length IS31FL3733_I2C_TIMEOUT ;;
       if negb (st =? 0) then ret (Some false) else ret None).

(** [wait_ms] of [wait.h] lets time pass; the world has no clock. *)
Definition wait_ms (ms : Z) : M unit := ret tt.

(** Body of the two loops of [is31fl3733_init] that zero a page. *)
Definition init_clear_body (addr i : Z) : M (option unit) :=
  is31fl3733_write_register addr (uint8 i) 0x00 ;;; ret None.

(** The value [is31fl3733_init] writes to the configuration register. *)
Definition configuration_value (sync : Z) : Z :=
  uint8 (Z.lor (Z.lor (Z.shiftl (Z.land sync 3) 6)
                  (Z.shiftl (Z.land IS31FL3733_PWM_FREQUENCY 7) 3))
           0x01).

Definition is31fl3733_init (addr sync : Z) : M unit :=
  is31fl3733_write_register addr IS31FL3733_COMMANDREGISTER_WRITELOCK 0xC5 ;;;
  is31fl3733_write_register addr IS31FL3733_COMMANDREGISTER
    IS31FL3733_PAGE_LEDCONTROL ;;;
  r <- for_loop 25 0x00 (fun i => i <=? 0x17) (fun i => i + 1)
         (init_clear_body addr) ;;
  returned r
    (is31fl3733_write_register addr IS31FL3733_COMMANDREGISTER_WRITELOCK
       0xC5 ;;;
     is31fl3733_write_register addr IS31FL3733_COMMANDREGISTER
       IS31FL3733_PAGE_PWM ;;;
     r <- for_loop 193 0x00 (fun i => i <=? 0xBF) (fun i => i + 1)
            (init_clear_body addr) ;;
     returned r
       (is31fl3733_write_register addr IS31FL3733_COMMANDREGISTER_WRITELOCK
          0xC5 ;;;
        is31fl3733_write_register addr IS31FL3733_COMMANDREGISTER
          IS31FL3733_PAGE_FUNCTION ;;;
        is31fl3733_write_register addr IS31FL3733_REG_SWPULLUP
          (uint8 IS31FL3733_SWPULLUP) ;;;
        is31fl3733_write_register addr IS31FL3733_REG_CSPULLUP
          (uint8 IS31FL3733_CSPULLUP) ;;;
        is31fl3733_write_register addr IS31FL3733_REG_GLOBALCURRENT
          IS31FL3733_GLOBALCURRENT ;;;
        is31fl3733_write_register addr IS31FL3733_REG_CONFIGURATION
          (configuration_value sync) ;;;
        wait_ms 10)).

(** The transfers the driver makes: to the device's write address, with the
    driver's timeout, of a register and a byte or of a register and 16
    bytes. *)
Definition driver_call (addr : Z) (c : i2c_call) : Prop :=
  tx_address c = uint8 (Z.shiftl addr 1)
  /\ tx_timeout c = IS31FL3733_I2C_TIMEOUT
  /\ (length (tx_data c) = 2%nat \/ length (tx_data c) = 17%nat).

End Driver.

Arguments Ok {i2c A} a w tr.
Arguments Fault {i2c A} f.

(** ** Concrete boards and buses, for examples *)

(** Two devices as on the board of [keyboards/drop/ctrl/v2/config.h], with
    four LEDs: two on each device. *)
Definition two_device_board : board :=
  {| IS31FL3733_DRIVER_COUNT := 2;
     LED_MATRIX_LED_COUNT := 4;
     g_is31_leds := [ {| driver := 0; v := 0 |};
                      {| driver := 0; v := 21 |};
                      {| driver := 1; v := 0 |};
                      {| driver := 1; v := 191 |} ] |}.

(** A bus on which every transfer is acknowledged. *)
Definition reliable_bus : i2c_master :=
  {| bus_state := unit;
     bus_transmit := fun _ _ _ _ => (tt, 0) |}.

(** A bus on which no transfer is acknowledged ([I2C_STATUS_ERROR]). *)
Definition dead_bus : i2c_master :=
  {| bus_state := unit;
     bus_transmit := fun _ _ _ _ => (tt, -1) |}.

(** A bus that counts its transfers and times the sixth one out
    ([I2C_STATUS_TIMEOUT]). *)
Definition flaky_bus : i2c_master :=
  {| bus_state := nat;
     bus_transmit := fun n _ _ _ =>
                       (S n, if Nat.eqb n 5 then -2 else 0) |}.

(** Chip settings for the examples: selector 2 for the PWM frequency, no
    de-ghosting resistors. *)
Definition example_settings : chip_settings :=
  {| IS31FL3733_PWM_FREQUENCY := 2;
     IS31FL3733_SWPULLUP := 0;
     IS31FL3733_CSPULLUP := 0 |}.

(** The two-device board at startup, on each of the buses. *)
Definition reliable_start : @world reliable_bus :=
  @initial_world reliable_bus two_device_board tt.

Definition dead_start : @world dead_bus :=
  @initial_world dead_bus two_device_board tt.

Definition flaky_start : @world flaky_bus :=
  @initial_world flaky_bus two_device_board 0%nat.

(** Side conditions on the concrete board and its start worlds are settled
    by evaluation. *)
Ltac concrete_board :=
  unfold board_ok; cbn; repeat split; try lia; repeat constructor; cbn; lia.

Ltac concrete_wf :=
  split; unfold reliable_start, dead_start, flaky_start; cbn;
  try reflexivity; repeat constructor.

(** * Proofs *)

Section Proofs.

Context {i2c : i2c_master} {brd : board}.

#[local] Arguments replicate : simpl never.

(** ** Arrays *)

Lemma index_get_Some {A : Type} (l : list A) (i : Z) (x : A) :
  index_get l i = Some x <-> 0 <= i /\ l !! Z.to_nat i = Some x.
Proof.
  unfold index_get. case_bool_decide; split; intros; intuition congruence.
Qed.

Lemma index_get_in_range {A : Type} (l : list A) (i : Z) :
  0 <= i < Z.of_nat (length l) -> exists x, index_get l i = Some x.
Proof.
  intros Hi. destruct (lookup_lt_is_Some_2 l (Z.to_nat i)) as [x Hx]; [lia|].
  exists x. apply index_get_Some. split; [lia | exact Hx].
Qed.

Lemma index_get_range {A : Type} (l : list A) (i : Z) (x : A) :
  index_get l i = Some x -> 0 <= i < Z.of_nat (length l).
Proof.
  intros [Hi Hx]%index_get_Some. apply lookup_lt_Some in Hx. lia.
Qed.

Lemma index_get_None {A : Type} (l : list A) (i : Z) :
  Z.of_nat (length l) <= i -> index_get l i = None.
Proof.
  intros Hi. unfold index_get. case_bool_decide; [|reflexivity].
  apply lookup_ge_None. lia.
Qed.

Lemma index_set_in_range {A : Type} (l : list A) (i : Z) (x : A) :
  0 <= i < Z.of_nat (length l) ->
  index_set l i x = Some (<[Z.to_nat i := x]> l).
Proof. intros Hi. unfold index_set. rewrite bool_decide_eq_true_2; auto. Qed.

Lemma index_get_insert {A : Type} (l : list A) (i : Z) (x : A) :
  0 <= i < Z.of_nat (length l) ->
  index_get (<[Z.to_nat i := x]> l) i = Some x.
Proof.
  intros Hi. apply index_get_Some. split; [lia|].
  apply list_lookup_insert_eq. lia.
Qed.

(** ** The monad *)

Lemma bind_Ok {A C : Type} (m : M A) (k : A -> M C) w a w1 t1 :
  m w = Ok a w1 t1 ->
  bind m k w = match k a w1 with
               | Ok c w2 t2 => Ok c w2 (t1 ++ t2)
               | Fault f => Fault f
               end.
Proof. intros H. unfold bind. rewrite H. reflexivity. Qed.

Lemma bind_Fault {A C : Type} (m : M A) (k : A -> M C) w f :
  m w = Fault f -> bind m k w = Fault f.
Proof. intros H. unfold bind. rewrite H. reflexivity. Qed.

(** ** Accessors *)

Lemma pwm_load_eq d off w :
  pwm_load d off w = match pwm_at w d off with
                     | Some x => Ok x w []
                     | None => Fault OutOfBounds
                     end.
Proof.
  unfold pwm_load, pwm_at, bind, get, checked, ret, abort.
  destruct (index_get (g_pwm_buffer w) d) as [row|]; [|reflexivity].
  destruct (index_get row off); reflexivity.
Qed.

Lemma pwm_store_eq d off x w row :
  index_get (g_pwm_buffer w) d = Some row ->
  0 <= off < Z.of_nat (length row) ->
  pwm_store d off x w
  = Ok tt (with_pwm w (<[Z.to_nat d := <[Z.to_nat off := x]> row]>
                         (g_pwm_buffer w))) [].
Proof.
  intros Hrow Hoff. unfold pwm_store, bind, get, checked, ret, put.
  rewrite Hrow, (index_set_in_range row) by assumption.
  rewrite index_set_in_range by eauto using index_get_range.
  reflexivity.
Qed.

Lemma pwm_required_load_eq d w :
  pwm_required_load d w = match pwm_dirty w d with
                          | Some b => Ok b w []
                          | None => Fault OutOfBounds
                          end.
Proof.
  unfold pwm_required_load, pwm_dirty, bind, get, checked, ret, abort.
  destruct index_get; reflexivity.
Qed.

Lemma pwm_required_store_eq d b w :
  0 <= d < Z.of_nat (length (g_pwm_buffer_update_required w)) ->
  pwm_required_store d b w
  = Ok tt (with_pwm_required w
             (<[Z.to_nat d := b]> (g_pwm_buffer_update_required w))) [].
Proof.
  intros Hd. unfold pwm_required_store, bind, get, checked, ret, put.
  rewrite index_set_in_range by assumption. reflexivity.
Qed.

Lemma control_load_eq d r w :
  control_load d r w = match control_at w d r with
                       | Some x => Ok x w []
                       | None => Fault OutOfBounds
                       end.
Proof.
  unfold control_load, control_at, bind, get, checked, ret, abort.
  destruct (index_get (g_led_control_registers w) d) as [row|]; [|reflexivity].
  destruct (index_get row r); reflexivity.
Qed.

Lemma control_store_eq d r x w row :
  index_get (g_led_control_registers w) d = Some row ->
  0 <= r < Z.of_nat (length row) ->
  control_store d r x w
  = Ok tt (with_control w (<[Z.to_nat d := <[Z.to_nat r := x]> row]>
                             (g_led_control_registers w))) [].
Proof.
  intros Hrow Hr. unfold control_store, bind, get, checked, ret, put.
  rewrite Hrow, (index_set_in_range row) by assumption.
  rewrite index_set_in_range by eauto using index_get_range.
  reflexivity.
Qed.

Lemma control_required_load_eq d w :
  control_required_load d w = match control_dirty w d with
                              | Some b => Ok b w []
                              | None => Fault OutOfBounds
                              end.
Proof.
  unfold control_required_load, control_dirty, bind, get, checked, ret, abort.
  destruct index_get; reflexivity.
Qed.

Lemma control_required_store_eq d b w :
  0 <= d < Z.of_nat (length (g_led_control_registers_update_required w)) ->
  control_required_store d b w
  = Ok tt (with_control_required w
             (<[Z.to_nat d := b]>
                (g_led_control_registers_update_required w))) [].
Proof.
  intros Hd. unfold control_required_store, bind, get, checked, ret, put.
  rewrite index_set_in_range by assumption. reflexivity.
Qed.

(** ** The table *)

Lemma table_entry (i : Z) :
  board_ok -> 0 <= i < LED_MATRIX_LED_COUNT ->
  exists led, index_get g_is31_leds i = Some led
              /\ 0 <= driver led < IS31FL3733_DRIVER_COUNT
              /\ 0 <= v led < 192.
Proof.
  intros (Hn & Hlen & Hall) Hi.
  destruct (index_get_in_range g_is31_leds i) as [led Hled]; [lia|].
  exists led. split; [exact Hled|].
  apply index_get_Some in Hled as [_ Hled].
  rewrite Forall_lookup in Hall. exact (Hall _ _ Hled).
Qed.

Lemma pwm_row (w : world) (d : Z) :
  wf w -> 0 <= d < IS31FL3733_DRIVER_COUNT ->
  exists row, index_get (g_pwm_buffer w) d = Some row
              /\ length row = 192%nat.
Proof.
  intros Hwf Hd.
  destruct (index_get_in_range (g_pwm_buffer w) d) as [row Hrow].
  { rewrite (wf_pwm _ Hwf). lia. }
  exists row. split; [exact Hrow|].
  apply index_get_Some in Hrow as [_ Hrow].
  pose proof (wf_pwm_rows _ Hwf) as Hall.
  rewrite Forall_lookup in Hall. exact (Hall _ _ Hrow).
Qed.

Lemma control_row (w : world) (d : Z) :
  wf w -> 0 <= d < IS31FL3733_DRIVER_COUNT ->
  exists row, index_get (g_led_control_registers w) d = Some row
              /\ length row = 24%nat.
Proof.
  intros Hwf Hd.
  destruct (index_get_in_range (g_led_control_registers w) d) as [row Hrow].
  { rewrite (wf_control _ Hwf). lia. }
  exists row. split; [exact Hrow|].
  apply index_get_Some in Hrow as [_ Hrow].
  pose proof (wf_control_rows _ Hwf) as Hall.
  rewrite Forall_lookup in Hall. exact (Hall _ _ Hrow).
Qed.

(** ** [is31fl3733_set_value] *)

(** What a call on an LED of the table does, given the slot it resolves
    to. *)
Lemma set_value_eq (w : world) (i value : Z) led row old :
  0 <= i < LED_MATRIX_LED_COUNT ->
  index_get g_is31_leds i = Some led ->
  index_get (g_pwm_buffer w) (driver led) = Some row ->
  index_get row (v led) = Some old ->
  length (g_pwm_buffer_update_required w) = length (g_pwm_buffer w) ->
  is31fl3733_set_value i value w
  = if old =? value then Ok tt w []
    else Ok tt
           (with_pwm_required
              (with_pwm w (<[Z.to_nat (driver led) :=
                               <[Z.to_nat (v led) := value]> row]>
                             (g_pwm_buffer w)))
              (<[Z.to_nat (driver led) := true]>
                 (g_pwm_buffer_update_required w))) [].
Proof.
  intros Hi Hled Hrow Hold Hlen. unfold is31fl3733_set_value.
  replace (0 <=? i) with true by lia.
  replace (i <? LED_MATRIX_LED_COUNT) with true by lia. simpl.
  rewrite (bind_Ok _ _ w led w []) by (rewrite Hled; reflexivity).
  rewrite (bind_Ok _ _ w old w []).
  2:{ rewrite pwm_load_eq. unfold pwm_at. rewrite Hrow, Hold. reflexivity. }
  destruct (old =? value); [reflexivity|].
  erewrite bind_Ok.
  2:{ apply pwm_store_eq; eauto using index_get_range. }
  rewrite pwm_required_store_eq; [reflexivity|].
  simpl. rewrite Hlen. eauto using index_get_range.
Qed.

Lemma set_value_skip (w : world) (i value : Z) :
  i < 0 \/ LED_MATRIX_LED_COUNT <= i ->
  is31fl3733_set_value i value w = Ok tt w [].
Proof.
  intros Hi. unfold is31fl3733_set_value.
  destruct (0 <=? i) eqn:H0; [|reflexivity].
  replace (i <? LED_MATRIX_LED_COUNT) with false by lia. reflexivity.
Qed.

Lemma wf_flag_lengths (w : world) :
  wf w ->
  length (g_pwm_buffer_update_required w) = length (g_pwm_buffer w).
Proof. intros Hwf. rewrite (wf_pwm _ Hwf). apply (wf_pwm_required _ Hwf). Qed.

(** The slot of an LED of the table exists in a well-formed world. *)
Lemma pwm_slot (w : world) (i : Z) :
  board_ok -> wf w -> 0 <= i < LED_MATRIX_LED_COUNT ->
  exists led row old,
    index_get g_is31_leds i = Some led
    /\ index_get (g_pwm_buffer w) (driver led) = Some row
    /\ index_get row (v led) = Some old.
Proof.
  intros Hb Hwf Hi.
  destruct (table_entry i Hb Hi) as (led & Hled & Hd & Hv).
  destruct (pwm_row w (driver led) Hwf Hd) as (row & Hrow & Hlen).
  destruct (index_get_in_range row (v led)) as [old Hold]; [lia|].
  eauto 10.
Qed.

(** C6: a logical index outside [0, LED_MATRIX_LED_COUNT) makes
    [is31fl3733_set_value] a silent no-op: the call returns without a bus
    transfer and leaves the whole world as it was, so no device's PWM page,
    control page or update-required flag changes. *)
Theorem set_value_out_of_range_noop (w : world) (index value : Z) :
  index < 0 \/ LED_MATRIX_LED_COUNT <= index ->
  is31fl3733_set_value index value w = Ok tt w []
  /\ forall w' tr,
       is31fl3733_set_value index value w = Ok tt w' tr ->
       g_pwm_buffer w' = g_pwm_buffer w
       /\ g_led_control_registers w' = g_led_control_registers w
       /\ g_pwm_buffer_update_required w' = g_pwm_buffer_update_required w
       /\ g_led_control_registers_update_required w'
          = g_led_control_registers_update_required w.
Proof.
  intros Hi. pose proof (set_value_skip w index value Hi) as Heq.
  split; [exact Heq|].
  intros w' tr Hrun. rewrite Heq in Hrun. injection Hrun as <- _. auto.
Qed.

(** C4: for a logical index [i] of the table and any value, after
    [is31fl3733_set_value i value] the PWM page of the device that the
    table gives for [i] holds [value] at the register offset that the table
    gives for [i]. *)
Theorem set_value_then_read (w : world) (i value : Z) :
  board_ok -> wf w -> 0 <= i < LED_MATRIX_LED_COUNT ->
  exists led w',
    index_get g_is31_leds i = Some led
    /\ is31fl3733_set_value i value w = Ok tt w' []
    /\ pwm_at w' (driver led) (v led) = Some value.
Proof.
  intros Hb Hwf Hi.
  destruct (pwm_slot w i Hb Hwf Hi) as (led & row & old & Hled & Hrow & Hold).
  pose proof (set_value_eq w i value led row old Hi Hled Hrow Hold
                (wf_flag_lengths w Hwf)) as Heq.
  exists led. destruct (old =? value) eqn:Hcmp.
  - exists w. repeat split; [exact Hled | exact Heq |].
    unfold pwm_at. rewrite Hrow, Hold. f_equal. lia.
  - eexists. repeat split; [exact Hled | exact Heq |].
    unfold pwm_at. simpl.
    rewrite index_get_insert by eauto using index_get_range.
    apply index_get_insert. eauto using index_get_range.
Qed.

(** C5: [is31fl3733_set_value] does nothing when the value is already
    there.  If the slot that [i] resolves to holds [value], the call returns
    the world unchanged (no page, no flag, no bus transfer); hence a second
    [set_value i value] right after a first leaves the world, and with it the
    PWM update-required flag, exactly as the first call left it: it does not
    set the flag when the flag was clear. *)
Theorem set_value_unchanged_noop (w : world) (i value : Z) :
  board_ok -> wf w -> 0 <= i < LED_MATRIX_LED_COUNT ->
  (forall led,
      index_get g_is31_leds i = Some led ->
      pwm_at w (driver led) (v led) = Some value ->
      is31fl3733_set_value i value w = Ok tt w [])
  /\ (exists w1,
         is31fl3733_set_value i value w = Ok tt w1 []
         /\ is31fl3733_set_value i value w1 = Ok tt w1 []
         /\ forall d flag,
              pwm_dirty w1 d = Some flag ->
              bind (is31fl3733_set_value i value)
                (fun _ => pwm_required_load d) w1 = Ok flag w1 []).
Proof.
  intros Hb Hwf Hi.
  destruct (pwm_slot w i Hb Hwf Hi) as (led & row & old & Hled & Hrow & Hold).
  pose proof (set_value_eq w i value led row old Hi Hled Hrow Hold
                (wf_flag_lengths w Hwf)) as Heq.
  assert (Hnoop : forall w0 : world,
             pwm_at w0 (driver led) (v led) = Some value ->
             is31fl3733_set_value i value w0 = Ok tt w0 []).
  { intros w0 Hat. unfold is31fl3733_set_value.
    replace (0 <=? i) with true by lia.
    replace (i <? LED_MATRIX_LED_COUNT) with true by lia. simpl.
    rewrite (bind_Ok _ _ w0 led w0 []) by (rewrite Hled; reflexivity).
    rewrite (bind_Ok _ _ w0 value w0 [])
      by (rewrite pwm_load_eq, Hat; reflexivity).
    rewrite Z.eqb_refl. reflexivity. }
  split.
  - intros led' Hled' Hat. rewrite Hled in Hled'. injection Hled' as <-.
    auto.
  - assert (Hex : exists w1,
               is31fl3733_set_value i value w = Ok tt w1 []
               /\ pwm_at w1 (driver led) (v led) = Some value).
    { destruct (old =? value) eqn:Hcmp.
      - exists w. split; [exact Heq|].
        unfold pwm_at. rewrite Hrow, Hold. f_equal. lia.
      - eexists. split; [exact Heq|].
        unfold pwm_at. simpl.
        rewrite index_get_insert by eauto using index_get_range.
        apply index_get_insert. eauto using index_get_range. }
    destruct Hex as (w1 & Hfirst & Hat). exists w1.
    split; [exact Hfirst|]. split; [auto|].
    intros d flag Hflag. rewrite (bind_Ok _ _ w1 tt w1 []) by auto.
    rewrite pwm_required_load_eq, Hflag. reflexivity.
Qed.

(** ** Bytes and bits *)

Lemma uint8_small (x : Z) : 0 <= x < 256 -> uint8 x = x.
Proof. intros Hx. unfold uint8. apply Z.mod_small. exact Hx. Qed.

Lemma uint8_is_byte (x : Z) : is_byte (uint8 x).
Proof. unfold is_byte, uint8. apply Z.mod_pos_bound. lia. Qed.

Lemma uint8_testbit (x k : Z) :
  Z.testbit (uint8 x) k = if k <? 8 then Z.testbit x k else false.
Proof.
  unfold uint8. change 256 with (2 ^ 8).
  destruct (k <? 8) eqn:Hk.
  - destruct (Z.lt_ge_cases k 0) as [Hneg|Hpos].
    + rewrite !Z.testbit_neg_r by lia. reflexivity.
    + apply Z.mod_pow2_bits_low. lia.
  - apply Z.mod_pow2_bits_high. lia.
Qed.

Lemma bit_mask_testbit (b k : Z) :
  0 <= b -> Z.testbit (Z.shiftl 1 b) k = (k =? b).
Proof.
  intros Hb. rewrite Z.shiftl_1_l, Z.pow2_bits_eqb by exact Hb.
  apply Z.eqb_sym.
Qed.

(** [byte |= (1 << b)] sets bit [b] and keeps the other seven. *)
Lemma set_bit_testbit (old b k : Z) :
  0 <= b < 8 -> 0 <= k < 8 ->
  Z.testbit (uint8 (Z.lor old (Z.shiftl 1 b))) k
  = if k =? b then true else Z.testbit old k.
Proof.
  intros Hb Hk. rewrite uint8_testbit.
  replace (k <? 8) with true by lia.
  rewrite Z.lor_spec, bit_mask_testbit by lia.
  destruct (k =? b); [apply orb_true_r | apply orb_false_r].
Qed.

(** [byte &= ~(1 << b)] clears bit [b] and keeps the other seven. *)
Lemma clear_bit_testbit (old b k : Z) :
  0 <= b < 8 -> 0 <= k < 8 ->
  Z.testbit (uint8 (Z.land old (Z.lnot (Z.shiftl 1 b)))) k
  = if k =? b then false else Z.testbit old k.
Proof.
  intros Hb Hk. rewrite uint8_testbit.
  replace (k <? 8) with true by lia.
  rewrite Z.land_spec, Z.lnot_spec, bit_mask_testbit by lia.
  destruct (k =? b); [apply andb_false_r | apply andb_true_r].
Qed.

(** Setting a bit that a first [|=] already set gives the same byte. *)
Lemma set_bit_twice (old b : Z) :
  0 <= b < 8 ->
  uint8 (Z.lor (uint8 (Z.lor old (Z.shiftl 1 b))) (Z.shiftl 1 b))
  = uint8 (Z.lor old (Z.shiftl 1 b)).
Proof.
  intros Hb. apply Z.bits_inj'. intros k Hk.
  rewrite !uint8_testbit. destruct (k <? 8) eqn:Hlt; [|reflexivity].
  rewrite !Z.lor_spec, uint8_testbit, Hlt, Z.lor_spec.
  rewrite <- orb_assoc, orb_diag. reflexivity.
Qed.

(** ** Well-formed worlds stay well-formed *)

Lemma Forall_insert_row (n : nat) (rows : list (list Z)) (d : nat) row :
  Forall (fun r => length r = n) rows -> length row = n ->
  Forall (fun r => length r = n) (<[d := row]> rows).
Proof. intros Hall Hrow. apply Forall_insert; assumption. Qed.

Lemma wf_pwm_update (w : world) (d off : nat) row value flags :
  wf w -> length row = 192%nat ->
  length flags = length (g_pwm_buffer_update_required w) ->
  wf (with_pwm_required
        (with_pwm w (<[d := <[off := value]> row]> (g_pwm_buffer w))) flags).
Proof.
  intros [] Hrow Hflags. split; simpl; try assumption.
  - rewrite length_insert. assumption.
  - apply Forall_insert_row; [assumption|].
    rewrite length_insert. exact Hrow.
  - congruence.
Qed.

Lemma wf_control_update (w : world) (d r : nat) row value flags :
  wf w -> length row = 24%nat ->
  length flags = length (g_led_control_registers_update_required w) ->
  wf (with_control_required
        (with_control w
           (<[d := <[r := value]> row]> (g_led_control_registers w))) flags).
Proof.
  intros [] Hrow Hflags. split; simpl; try assumption.
  - rewrite length_insert. assumption.
  - apply Forall_insert_row; [assumption|].
    rewrite length_insert. exact Hrow.
  - congruence.
Qed.

Lemma wf_flags_update (w : world) pwm_flags control_flags :
  wf w ->
  length pwm_flags = length (g_pwm_buffer_update_required w) ->
  length control_flags
  = length (g_led_control_registers_update_required w) ->
  wf (with_pwm_required (with_control_required w control_flags) pwm_flags).
Proof. intros [] H1 H2. split; simpl; try assumption; congruence. Qed.

Lemma wf_frame (w w' : world) : wf w -> frame w w' -> wf w'.
Proof.
  intros [] []. split; try congruence.
Qed.

(** ** [is31fl3733_set_led_control_register] *)

(** The byte that the call leaves in the control register. *)
Lemma set_control_eq (w : world) (i : Z) (value : bool) led row old :
  index_get g_is31_leds i = Some led ->
  0 <= v led < 192 ->
  index_get (g_led_control_registers w) (driver led) = Some row ->
  index_get row (v led / 8) = Some old ->
  length (g_led_control_registers_update_required w)
  = length (g_led_control_registers w) ->
  is31fl3733_set_led_control_register i value w
  = Ok tt
      (with_control_required
         (with_control w
            (<[Z.to_nat (driver led) :=
                 <[Z.to_nat (v led / 8) :=
                     if value
                     then uint8 (Z.lor old (Z.shiftl 1 (v led mod 8)))
                     else uint8 (Z.land old
                                   (Z.lnot (Z.shiftl 1 (v led mod 8))))]>
                   row]> (g_led_control_registers w)))
         (<[Z.to_nat (driver led) := true]>
            (g_led_control_registers_update_required w))) [].
Proof.
  intros Hled Hv Hrow Hold Hlen. unfold is31fl3733_set_led_control_register.
  rewrite (bind_Ok _ _ w led w []) by (rewrite Hled; reflexivity).
  rewrite (uint8_small (v led / 8)) by (split; [apply Z.div_pos | apply Z.div_lt_upper_bound]; lia).
  rewrite (uint8_small (v led mod 8))
    by (pose proof (Z.mod_pos_bound (v led) 8); lia).
  rewrite (bind_Ok _ _ w old w []).
  2:{ rewrite control_load_eq. unfold control_at. rewrite Hrow, Hold.
      reflexivity. }
  destruct value.
  - erewrite bind_Ok
      by (apply control_store_eq; eauto using index_get_range).
    rewrite control_required_store_eq; [reflexivity|].
    simpl. rewrite Hlen. eauto using index_get_range.
  - erewrite bind_Ok
      by (apply control_store_eq; eauto using index_get_range).
    rewrite control_required_store_eq; [reflexivity|].
    simpl. rewrite Hlen. eauto using index_get_range.
Qed.

Lemma control_slot (w : world) (i : Z) :
  board_ok -> wf w -> 0 <= i < LED_MATRIX_LED_COUNT ->
  exists led row old,
    index_get g_is31_leds i = Some led
    /\ 0 <= v led < 192
    /\ index_get (g_led_control_registers w) (driver led) = Some row
    /\ length row = 24%nat
    /\ index_get row (v led / 8) = Some old.
Proof.
  intros Hb Hwf Hi.
  destruct (table_entry i Hb Hi) as (led & Hled & Hd & Hv).
  destruct (control_row w (driver led) Hwf Hd) as (row & Hrow & Hlen).
  destruct (index_get_in_range row (v led / 8)) as [old Hold].
  { split; [apply Z.div_pos | apply Z.div_lt_upper_bound]; lia. }
  eauto 10.
Qed.

Lemma wf_control_flag_lengths (w : world) :
  wf w ->
  length (g_led_control_registers_update_required w)
  = length (g_led_control_registers w).
Proof.
  intros Hwf. rewrite (wf_control _ Hwf).
  apply (wf_control_required _ Hwf).
Qed.

(** C7: for an LED [i] of the table, [is31fl3733_set_led_control_register
    i enabled] rewrites, in the control page of the device the table gives
    for [i], the byte at register [v / 8] so that its bit [v mod 8] equals
    [enabled] and its other seven bits are as before; nothing else in the
    control pages changes, and the control update-required flag of that
    device is set whether or not the bit changed.  Two calls with [true] in
    a row both succeed, the second changes no register, and the flag is set
    after each. *)
Theorem set_led_control_register_bit (w : world) (i : Z) (enabled : bool) :
  board_ok -> wf w -> 0 <= i < LED_MATRIX_LED_COUNT ->
  exists led,
    index_get g_is31_leds i = Some led
    /\ (exists row old new w',
           index_get (g_led_control_registers w) (driver led) = Some row
           /\ index_get row (v led / 8) = Some old
           /\ is31fl3733_set_led_control_register i enabled w = Ok tt w' []
           /\ g_led_control_registers w'
              = <[Z.to_nat (driver led) :=
                    <[Z.to_nat (v led / 8) := new]> row]>
                  (g_led_control_registers w)
           /\ is_byte new
           /\ (forall k, 0 <= k < 8 ->
                 Z.testbit new k
                 = if k =? v led mod 8 then enabled else Z.testbit old k)
           /\ g_led_control_registers_update_required w'
              = <[Z.to_nat (driver led) := true]>
                  (g_led_control_registers_update_required w)
           /\ control_dirty w' (driver led) = Some true
           /\ g_pwm_buffer w' = g_pwm_buffer w
           /\ g_pwm_buffer_update_required w'
              = g_pwm_buffer_update_required w)
    /\ (exists w1 w2,
           is31fl3733_set_led_control_register i true w = Ok tt w1 []
           /\ control_dirty w1 (driver led) = Some true
           /\ is31fl3733_set_led_control_register i true w1 = Ok tt w2 []
           /\ control_dirty w2 (driver led) = Some true
           /\ g_led_control_registers w2 = g_led_control_registers w1).
Proof.
  intros Hb Hwf Hi.
  destruct (control_slot w i Hb Hwf Hi)
    as (led & row & old & Hled & Hv & Hrow & Hlen & Hold).
  pose proof (wf_control_flag_lengths w Hwf) as Hflags.
  assert (Hbit : 0 <= v led mod 8 < 8) by (apply Z.mod_pos_bound; lia).
  assert (Hd : 0 <= driver led
               < Z.of_nat (length (g_led_control_registers_update_required w))).
  { rewrite Hflags. eauto using index_get_range. }
  exists led. split; [exact Hled|]. split.
  - pose proof (set_control_eq w i enabled led row old Hled Hv Hrow Hold
                  Hflags) as Heq.
    exists row, old. eexists. eexists.
    split; [exact Hrow|]. split; [exact Hold|]. split; [exact Heq|].
    split; [reflexivity|]. split; [|split]; [| |split; [reflexivity|]].
    + destruct enabled; apply uint8_is_byte.
    + intros k Hk. destruct enabled.
      * apply set_bit_testbit; assumption.
      * apply clear_bit_testbit; assumption.
    + split; [|split; reflexivity].
      unfold control_dirty. simpl. apply index_get_insert. exact Hd.
  - pose proof (set_control_eq w i true led row old Hled Hv Hrow Hold Hflags)
      as Heq1.
    set (new := uint8 (Z.lor old (Z.shiftl 1 (v led mod 8)))) in *.
    set (row1 := <[Z.to_nat (v led / 8) := new]> row) in *.
    set (w1 := with_control_required _ _) in Heq1.
    assert (Hrow1 : index_get (g_led_control_registers w1) (driver led)
                    = Some row1).
    { simpl. apply index_get_insert. eauto using index_get_range. }
    assert (Hnew : index_get row1 (v led / 8) = Some new).
    { apply index_get_insert. eauto using index_get_range. }
    assert (Hflags1 : length (g_led_control_registers_update_required w1)
                      = length (g_led_control_registers w1)).
    { simpl. rewrite !length_insert. exact Hflags. }
    pose proof (set_control_eq w1 i true led row1 new Hled Hv Hrow1 Hnew
                  Hflags1) as Heq2.
    exists w1. eexists.
    split; [exact Heq1|]. split; [|split; [exact Heq2|split]].
    + unfold control_dirty. simpl. apply index_get_insert. exact Hd.
    + unfold control_dirty. simpl. apply index_get_insert.
      rewrite length_insert. exact Hd.
    + simpl. unfold new at 1. rewrite set_bit_twice by exact Hbit.
      fold new. unfold row1 at 1.
      rewrite !list_insert_insert_eq. reflexivity.
Qed.

(** C10: [is31fl3733_set_led_control_register] does not validate its
    index.  On an LED of the table it always goes on to mutate the control
    page and set the flag: the byte at register [v / 8] of the LED's device
    is rewritten with bit [v mod 8] equal to the requested state and its
    other bits kept, no other control byte changes, and the control flag of
    that device is set.  On an index at or beyond [LED_MATRIX_LED_COUNT] it
    still reads [g_is31_leds[index]], which is outside the table: the lookup
    yields nothing and the call faults with [OutOfBounds], where
    [is31fl3733_set_value] on the same index returns without touching
    anything. *)
Theorem set_led_control_register_unchecked (w : world) (index : Z)
    (enabled : bool) (value : Z) :
  board_ok -> wf w -> 0 <= index < 256 ->
  (index < LED_MATRIX_LED_COUNT ->
     exists led row old new w',
       index_get g_is31_leds index = Some led
       /\ index_get (g_led_control_registers w) (driver led) = Some row
       /\ index_get row (v led / 8) = Some old
       /\ is31fl3733_set_led_control_register index enabled w = Ok tt w' []
       /\ g_led_control_registers w'
          = <[Z.to_nat (driver led) :=
                <[Z.to_nat (v led / 8) := new]> row]>
              (g_led_control_registers w)
       /\ control_at w' (driver led) (v led / 8) = Some new
       /\ is_byte new
       /\ (forall k, 0 <= k < 8 ->
             Z.testbit new k
             = if k =? v led mod 8 then enabled else Z.testbit old k)
       /\ g_led_control_registers_update_required w'
          = <[Z.to_nat (driver led) := true]>
              (g_led_control_registers_update_required w)
       /\ control_dirty w' (driver led) = Some true)
  /\ (LED_MATRIX_LED_COUNT <= index ->
        index_get g_is31_leds index = None
        /\ is31fl3733_set_led_control_register index enabled w
           = Fault OutOfBounds
        /\ is31fl3733_set_value index value w = Ok tt w []).
Proof.
  intros Hb Hwf Hindex. split.
  - intros Hlt.
    destruct (control_slot w index Hb Hwf)
      as (led & row & old & Hled & Hv & Hrow & Hlen & Hold); [lia|].
    pose proof (wf_control_flag_lengths w Hwf) as Hflags.
    assert (Hbit : 0 <= v led mod 8 < 8) by (apply Z.mod_pos_bound; lia).
    pose proof (set_control_eq w index enabled led row old Hled Hv Hrow Hold
                  Hflags) as Heq.
    exists led, row, old. eexists. eexists.
    split; [exact Hled|]. split; [exact Hrow|]. split; [exact Hold|].
    split; [exact Heq|]. split; [reflexivity|].
    split; [|split; [|split; [|split; [reflexivity|]]]].
    + unfold control_at.
      cbn [g_led_control_registers with_control_required with_control].
      rewrite index_get_insert by eauto using index_get_range.
      apply index_get_insert. eauto using index_get_range.
    + destruct enabled; apply uint8_is_byte.
    + intros k Hk. destruct enabled.
      * apply set_bit_testbit; assumption.
      * apply clear_bit_testbit; assumption.
    + unfold control_dirty.
      cbn [g_led_control_registers_update_required with_control_required].
      apply index_get_insert. rewrite Hflags. eauto using index_get_range.
  - intros Hge.
    assert (Hnone : index_get g_is31_leds index = None).
    { apply index_get_None. destruct Hb as (Hn & Hlen & _).
      rewrite Hlen. lia. }
    split; [exact Hnone|]. split.
    + unfold is31fl3733_set_led_control_register.
      apply bind_Fault. rewrite Hnone. reflexivity.
    + apply set_value_skip. right. exact Hge.
Qed.

(** ** Bus traces *)

Lemma frame_refl (w : world) : frame w w.
Proof. split; reflexivity. Qed.

Lemma frame_trans (w1 w2 w3 : world) :
  frame w1 w2 -> frame w2 w3 -> frame w1 w3.
Proof. intros [] []. split; congruence. Qed.

Lemma bus_trace_app b1 t1 b2 t2 b3 :
  bus_trace b1 t1 b2 -> bus_trace b2 t2 b3 -> bus_trace b1 (t1 ++ t2) b3.
Proof.
  induction 1 as [|b c tr b' Hst Htr IH]; intros H2; simpl.
  - exact H2.
  - constructor; auto.
Qed.

Lemma bus_trace_acked b tr b' :
  always_succeeds -> bus_trace b tr b' -> Forall acked tr.
Proof.
  intros Hok. induction 1 as [|b c tr b' Hst Htr IH]; constructor.
  - unfold acked. rewrite <- Hst. apply Hok.
  - exact IH.
Qed.

Lemma transfers_refl (w : world) : transfers w [] w.
Proof. split; [apply frame_refl | constructor]. Qed.

Lemma transfers_trans w1 t1 w2 t2 w3 :
  transfers w1 t1 w2 -> transfers w2 t2 w3 -> transfers w1 (t1 ++ t2) w3.
Proof.
  intros [Hf1 Hb1] [Hf2 Hb2].
  split; [eapply frame_trans | eapply bus_trace_app]; eassumption.
Qed.

Lemma transfers_with_twi (w : world) buf tr w' :
  length buf = length (g_twi_transfer_buffer w) ->
  transfers (with_twi w buf) tr w' -> transfers w tr w'.
Proof.
  intros Hlen [[] Hb]. simpl in *. split; [split|]; simpl; congruence.
Qed.


(** ** Register writes *)

Lemma twi_store_eq (i x : Z) (w : world) :
  0 <= i < Z.of_nat (length (g_twi_transfer_buffer w)) ->
  twi_store i x w
  = Ok tt (with_twi w (<[Z.to_nat i := x]> (g_twi_transfer_buffer w))) [].
Proof.
  intros Hi. unfold twi_store, bind, get, checked, ret, put.
  rewrite index_set_in_range by assumption. reflexivity.
Qed.

(** One transfer of the first [len] bytes of the transfer buffer. *)
Lemma transmit_twi_spec (addr len : Z) (w : world) :
  0 <= len <= Z.of_nat (length (g_twi_transfer_buffer w)) ->
  exists st w',
    transmit_twi addr len w
    = Ok (if st =? 0 then None else Some false) w'
        [ {| tx_address := uint8 (Z.shiftl addr 1);
             tx_data := take (Z.to_nat len) (g_twi_transfer_buffer w);
             tx_timeout := IS31FL3733_I2C_TIMEOUT;
             tx_status := st |} ]
    /\ transfers w
         [ {| tx_address := uint8 (Z.shiftl addr 1);
              tx_data := take (Z.to_nat len) (g_twi_transfer_buffer w);
              tx_timeout := IS31FL3733_I2C_TIMEOUT;
              tx_status := st |} ] w'.
Proof.
  intros Hlen.
  set (r := bus_transmit (bus w) (uint8 (Z.shiftl addr 1))
              (take (Z.to_nat len) (g_twi_transfer_buffer w))
              IS31FL3733_I2C_TIMEOUT).
  exists (snd r), (with_bus w (fst r)). split.
  - unfold transmit_twi.
    change (0 <? IS31FL3733_I2C_PERSISTENCE) with false. cbv iota.
    unfold bind, get, i2c_transmit.
    rewrite bool_decide_eq_true_2 by exact Hlen. fold r.
    destruct (snd r =? 0); reflexivity.
  - split; [split; reflexivity|].
    constructor; simpl; [reflexivity | constructor].
Qed.

Lemma write_register_spec (addr reg data : Z) (w : world) :
  (2 <= length (g_twi_transfer_buffer w))%nat ->
  exists st w',
    is31fl3733_write_register addr reg data w
    = Ok (st =? 0) w' [register_call addr reg data st]
    /\ transfers w [register_call addr reg data st] w'.
Proof.
  intros Hlen. unfold is31fl3733_write_register.
  rewrite (bind_Ok _ _ _ _ _ _ (twi_store_eq 0 reg w ltac:(lia))).
  set (w1 := with_twi w _).
  assert (Hlen1 : length (g_twi_transfer_buffer w1)
                  = length (g_twi_transfer_buffer w)).
  { simpl. apply length_insert. }
  rewrite (bind_Ok _ _ _ _ _ _ (twi_store_eq 1 data w1 ltac:(lia))).
  set (w2 := with_twi w1 _).
  assert (Hlen2 : length (g_twi_transfer_buffer w2)
                  = length (g_twi_transfer_buffer w)).
  { simpl. rewrite !length_insert. reflexivity. }
  destruct (transmit_twi_spec addr 2 w2) as (st & w' & Heq & Htr); [lia|].
  assert (Hdata : take (Z.to_nat 2) (g_twi_transfer_buffer w2) = [reg; data]).
  { simpl. destruct (g_twi_transfer_buffer w) as [|a [|b t]];
      simpl in Hlen; try lia. reflexivity. }
  rewrite Hdata in Heq, Htr. fold (register_call addr reg data st) in Heq, Htr.
  exists st, w'. split.
  - rewrite (bind_Ok _ _ _ _ _ _ Heq). destruct (st =? 0); reflexivity.
  - apply (transfers_with_twi w (g_twi_transfer_buffer w2)); [exact Hlen2|].
    destruct w; exact Htr.
Qed.

(** ** Loops *)

Lemma for_loop_S {R : Type} (fuel : nat) (i : Z) cond next
    (body : Z -> M (option R)) :
  for_loop (S fuel) i cond next body
  = if cond i
    then bind (body i)
           (fun r => match r with
                     | Some x => ret (Some x)
                     | None => for_loop fuel (next i) cond next body
                     end)
    else ret None.
Proof. reflexivity. Qed.

(** ** The block write of a PWM page *)

Lemma chunk_payload (twi pwm_buffer : list Z) (j : nat) :
  length twi = 20%nat -> length pwm_buffer = 192%nat -> (j < 12)%nat ->
  take 17 (take 1 (<[0%nat := Z.of_nat (16 * j)]> twi)
           ++ take 16 (drop (16 * j) pwm_buffer)
           ++ drop 17 (<[0%nat := Z.of_nat (16 * j)]> twi))
  = Z.of_nat (16 * j) :: take 16 (drop (16 * j) pwm_buffer).
Proof.
  intros Htwi Hbuf Hj. destruct twi as [|t0 twi]; [discriminate|].
  cbn [take insert list_insert app]. rewrite take_0. cbn [app take].
  f_equal. apply take_app_length'.
  rewrite length_take, length_drop. lia.
Qed.

Lemma write_pwm_buffer_body_spec (addr : Z) (pwm_buffer : list Z) (j : nat)
    (w : world) :
  length (g_twi_transfer_buffer w) = 20%nat ->
  length pwm_buffer = 192%nat -> (j < 12)%nat ->
  exists st w',
    write_pwm_buffer_body addr pwm_buffer (Z.of_nat (16 * j)) w
    = Ok (if st =? 0 then None else Some false) w'
        [chunk_call addr pwm_buffer j st]
    /\ transfers w [chunk_call addr pwm_buffer j st] w'.
Proof.
  intros Htwi Hbuf Hj. unfold write_pwm_buffer_body.
  rewrite uint8_small by lia.
  rewrite (bind_Ok _ _ _ _ _ _
             (twi_store_eq 0 (Z.of_nat (16 * j)) w ltac:(lia))).
  set (w1 := with_twi w _).
  rewrite (bind_Ok _ _ w1 w1 w1 []) by reflexivity.
  unfold memcpy. rewrite bool_decide_eq_true_2.
  2:{ simpl. rewrite length_insert. lia. }
  set (buf := (_ ++ _ ++ _)%list).
  rewrite (bind_Ok _ _ w1 buf w1 []) by reflexivity.
  rewrite (bind_Ok _ _ w1 tt (with_twi w1 buf) []) by reflexivity.
  assert (Hpay : take 17 buf
                 = Z.of_nat (16 * j) :: take 16 (drop (16 * j) pwm_buffer)).
  { subst buf. simpl g_twi_transfer_buffer.
    change (Z.to_nat 0) with 0%nat. change (Z.to_nat 1) with 1%nat.
    change (Z.to_nat 16) with 16%nat. change (Z.to_nat (1 + 16)) with 17%nat.
    rewrite Nat2Z.id. apply chunk_payload; assumption. }
  assert (Hlen : length buf = 20%nat).
  { subst buf. simpl g_twi_transfer_buffer.
    rewrite !length_app, !length_take, !length_drop, !length_insert.
    rewrite Nat2Z.id. change (Z.to_nat 1) with 1%nat.
    change (Z.to_nat 16) with 16%nat. change (Z.to_nat (1 + 16)) with 17%nat.
    lia. }
  destruct (transmit_twi_spec addr 17 (with_twi w1 buf))
    as (st & w' & Heq & Htr).
  { simpl. lia. }
  simpl g_twi_transfer_buffer in Heq, Htr.
  change (Z.to_nat 17) with 17%nat in Heq, Htr.
  rewrite Hpay in Heq, Htr.
  fold (chunk_call addr pwm_buffer j st) in Heq, Htr.
  exists st, w'. split.
  - rewrite Heq. reflexivity.
  - apply (transfers_with_twi w buf); [congruence|].
    destruct w; exact Htr.
Qed.

Lemma write_pwm_buffer_loop_spec (addr : Z) (pwm_buffer : list Z) :
  length pwm_buffer = 192%nat ->
  forall (n j fuel : nat) (w : world),
    (j + n = 12)%nat -> (n < fuel)%nat ->
    length (g_twi_transfer_buffer w) = 20%nat ->
    exists (r : bool) w' tr,
      for_loop fuel (Z.of_nat (16 * j)) (fun i => i <? 192)
        (fun i => i + 16) (write_pwm_buffer_body addr pwm_buffer) w
      = Ok (if r then None else Some false) w' tr
      /\ transfers w tr w'
      /\ block_write addr pwm_buffer j n r tr.
Proof.
  intros Hbuf. induction n as [|n IH]; intros j fuel w Hj Hfuel Htwi;
    (destruct fuel as [|fuel]; [lia|]); rewrite for_loop_S.
  - rewrite (proj2 (Z.ltb_ge (Z.of_nat (16 * j)) 192)) by lia.
    exists true, w, []. split; [reflexivity|].
    split; [apply transfers_refl | constructor].
  - rewrite (proj2 (Z.ltb_lt (Z.of_nat (16 * j)) 192)) by lia.
    destruct (write_pwm_buffer_body_spec addr pwm_buffer j w Htwi Hbuf)
      as (st & w1 & Hbody & Htr1); [lia|].
    rewrite (bind_Ok _ _ _ _ _ _ Hbody).
    destruct (st =? 0) eqn:Hst.
    + apply Z.eqb_eq in Hst. subst st.
      replace (Z.of_nat (16 * j) + 16) with (Z.of_nat (16 * S j)) by lia.
      destruct (IH (S j) fuel w1) as (r & w' & tr & Hloop & Htr & Hblock);
        [lia | lia | |].
      { rewrite (frame_twi _ _ (proj1 Htr1)). exact Htwi. }
      rewrite Hloop. exists r, w', (chunk_call addr pwm_buffer j 0 :: tr).
      split; [reflexivity|]. split.
      * exact (transfers_trans _ _ _ _ _ Htr1 Htr).
      * constructor. exact Hblock.
    + apply Z.eqb_neq in Hst.
      exists false, w1, [chunk_call addr pwm_buffer j st].
      split; [reflexivity|]. split; [exact Htr1|].
      constructor. exact Hst.
Qed.

Lemma write_pwm_buffer_spec (addr : Z) (pwm_buffer : list Z) (w : world) :
  length (g_twi_transfer_buffer w) = 20%nat ->
  length pwm_buffer = 192%nat ->
  exists r w' tr,
    is31fl3733_write_pwm_buffer addr pwm_buffer w = Ok r w' tr
    /\ transfers w tr w'
    /\ block_write addr pwm_buffer 0 12 r tr.
Proof.
  intros Htwi Hbuf.
  destruct (write_pwm_buffer_loop_spec addr pwm_buffer Hbuf 12 0 13 w)
    as (r & w' & tr & Hloop & Htr & Hblock); [lia | lia | exact Htwi |].
  exists r, w', tr. split; [|split; assumption].
  unfold is31fl3733_write_pwm_buffer.
  change 0 with (Z.of_nat (16 * 0)) at 1.
  rewrite (bind_Ok _ _ _ _ _ _ Hloop).
  destruct r; simpl; rewrite app_nil_r; reflexivity.
Qed.

(** A block write that reports success sent every chunk and had each
    acknowledged. *)
Lemma block_write_true (addr : Z) (pwm_buffer : list Z) j n tr :
  block_write addr pwm_buffer j n true tr ->
  tr = map (fun k => chunk_call addr pwm_buffer k 0) (seq j n).
Proof.
  intros H. remember true as r eqn:Hr.
  induction H as [j|j n st Hst|j n r tr H IH]; try discriminate.
  - reflexivity.
  - simpl. f_equal. auto.
Qed.

(** A block write that reports failure sent some acknowledged chunks, then
    the one that failed, and nothing after it. *)
Lemma block_write_false (addr : Z) (pwm_buffer : list Z) j n tr :
  block_write addr pwm_buffer j n false tr ->
  exists (k : nat) (st : Z),
    (k < n)%nat /\ st <> 0
    /\ tr = map (fun k => chunk_call addr pwm_buffer k 0) (seq j k)
            ++ [chunk_call addr pwm_buffer (j + k) st].
Proof.
  intros H. remember false as r eqn:Hr.
  induction H as [j|j n st Hst|j n r tr H IH]; try discriminate.
  - exists 0%nat, st. split; [lia|]. split; [exact Hst|].
    simpl. rewrite Nat.add_0_r. reflexivity.
  - destruct (IH Hr) as (k & st & Hk & Hst & ->).
    exists (S k), st. split; [lia|]. split; [exact Hst|].
    simpl. rewrite Nat.add_succ_r. reflexivity.
Qed.

Lemma block_write_acked (addr : Z) (pwm_buffer : list Z) j n r tr :
  block_write addr pwm_buffer j n r tr -> Forall acked tr -> r = true.
Proof.
  induction 1 as [j|j n st Hst|j n r tr H IH]; intros Hall.
  - reflexivity.
  - apply Forall_cons in Hall as [Hc _]. contradiction.
  - apply Forall_cons in Hall as [_ Hall]. auto.
Qed.

Lemma chunk_call_length (addr : Z) (pwm_buffer : list Z) (j : nat) st :
  length pwm_buffer = 192%nat -> (j < 12)%nat ->
  length (tx_data (chunk_call addr pwm_buffer j st)) = 17%nat.
Proof.
  intros Hbuf Hj. simpl. rewrite length_take, length_drop. lia.
Qed.

(** ** [is31fl3733_update_pwm_buffers] *)

Lemma update_pwm_buffers_clean (addr index : Z) (w : world) :
  pwm_dirty w index = Some false ->
  is31fl3733_update_pwm_buffers addr index w = Ok tt w [].
Proof.
  intros Hflag. unfold is31fl3733_update_pwm_buffers.
  rewrite (bind_Ok _ _ w false w [])
    by (rewrite pwm_required_load_eq, Hflag; reflexivity).
  reflexivity.
Qed.

(** A flush that runs: page selection, then the block write [tr] with
    result [r]; the pages stay, the PWM flag of the device is cleared, and
    its control flag is set when [r] is [false]. *)
Lemma update_pwm_buffers_dirty (addr index : Z) (w : world) :
  wf w -> 0 <= index < IS31FL3733_DRIVER_COUNT ->
  pwm_dirty w index = Some true ->
  exists row st1 st2 r tr w',
    index_get (g_pwm_buffer w) index = Some row
    /\ length row = 192%nat
    /\ is31fl3733_update_pwm_buffers addr index w
       = Ok tt w' (select_page addr IS31FL3733_PAGE_PWM st1 st2 ++ tr)
    /\ block_write addr row 0 12 r tr
    /\ bus_trace (bus w)
         (select_page addr IS31FL3733_PAGE_PWM st1 st2 ++ tr) (bus w')
    /\ length (g_twi_transfer_buffer w') = 20%nat
    /\ g_pwm_buffer w' = g_pwm_buffer w
    /\ g_led_control_registers w' = g_led_control_registers w
    /\ g_pwm_buffer_update_required w'
       = <[Z.to_nat index := false]> (g_pwm_buffer_update_required w)
    /\ g_led_control_registers_update_required w'
       = if r then g_led_control_registers_update_required w
         else <[Z.to_nat index := true]>
                (g_led_control_registers_update_required w).
Proof.
  intros Hwf Hindex Hflag.
  destruct (pwm_row w index Hwf Hindex) as (row & Hrow & Hlen).
  pose proof (wf_twi _ Hwf) as Htwi.
  destruct (write_register_spec addr IS31FL3733_COMMANDREGISTER_WRITELOCK
              0xC5 w) as (st1 & w1 & Heq1 & Htr1); [lia|].
  pose proof (frame_twi _ _ (proj1 Htr1)) as Htwi1.
  destruct (write_register_spec addr IS31FL3733_COMMANDREGISTER
              IS31FL3733_PAGE_PWM w1) as (st2 & w2 & Heq2 & Htr2); [lia|].
  pose proof (transfers_trans _ _ _ _ _ Htr1 Htr2) as Htr12.
  pose proof (frame_twi _ _ (proj1 Htr12)) as Htwi2.
  destruct (write_pwm_buffer_spec addr row w2)
    as (r & w3 & tr & Heq3 & Htr3 & Hblock); [congruence | exact Hlen |].
  pose proof (transfers_trans _ _ _ _ _ Htr12 Htr3) as [Hframe Hbus].
  destruct Hframe as [Hf1 Hf2 Hf3 Hf4 Hf5].
  assert (Hc : 0 <= index
               < Z.of_nat (length
                             (g_led_control_registers_update_required w3))).
  { rewrite Hf5, (wf_control_required _ Hwf). lia. }
  assert (Hp : 0 <= index
               < Z.of_nat (length (g_pwm_buffer_update_required w3))).
  { rewrite Hf3, (wf_pwm_required _ Hwf). lia. }
  exists row, st1, st2, r, tr.
  exists (with_pwm_required
            (if r then w3
             else with_control_required w3
                    (<[Z.to_nat index := true]>
                       (g_led_control_registers_update_required w3)))
            (<[Z.to_nat index := false]> (g_pwm_buffer_update_required w3))).
  split; [exact Hrow|]. split; [exact Hlen|].
  split; [|split; [exact Hblock|]].
  - unfold is31fl3733_update_pwm_buffers.
    rewrite (bind_Ok _ _ w true w [])
      by (rewrite pwm_required_load_eq, Hflag; reflexivity).
    rewrite (bind_Ok _ _ _ _ _ _ Heq1), (bind_Ok _ _ _ _ _ _ Heq2).
    rewrite (bind_Ok _ _ w2 w2 w2 []) by reflexivity.
    rewrite (bind_Ok _ _ w2 row w2 []).
    2:{ rewrite (frame_pwm _ _ (proj1 Htr12)), Hrow. reflexivity. }
    rewrite (bind_Ok _ _ _ _ _ _ Heq3).
    destruct r; simpl negb; cbv iota.
    + rewrite (bind_Ok _ _ w3 tt w3 []) by reflexivity.
      rewrite (pwm_required_store_eq index false w3 Hp).
      simpl. rewrite !app_nil_r. reflexivity.
    + rewrite (bind_Ok _ _ _ _ _ _
                 (control_required_store_eq index true w3 Hc)).
      rewrite pwm_required_store_eq by exact Hp.
      simpl. rewrite !app_nil_r. reflexivity.
  - destruct r; simpl; rewrite ?Hf1, ?Hf2, ?Hf3, ?Hf4, ?Hf5;
      repeat split; try reflexivity; try exact Hbus; exact Htwi.
Qed.

Lemma pwm_dirty_in_range (w : world) (index : Z) :
  wf w -> 0 <= index < IS31FL3733_DRIVER_COUNT ->
  exists flag, pwm_dirty w index = Some flag.
Proof.
  intros Hwf Hindex. apply index_get_in_range.
  rewrite (wf_pwm_required _ Hwf). lia.
Qed.

Lemma control_dirty_in_range (w : world) (index : Z) :
  wf w -> 0 <= index < IS31FL3733_DRIVER_COUNT ->
  exists flag, control_dirty w index = Some flag.
Proof.
  intros Hwf Hindex. apply index_get_in_range.
  rewrite (wf_control_required _ Hwf). lia.
Qed.

Lemma select_page_short (addr page st1 st2 : Z) :
  Forall (fun c => length (tx_data c) = 2%nat)
    (select_page addr page st1 st2).
Proof. repeat constructor. Qed.

(** C2: when [is31fl3733_update_pwm_buffers] runs on a device whose PWM
    update-required flag is set, it returns with that flag cleared, whatever
    the bus answered; and if one of the 17-byte transfers of the block write
    was not acknowledged, the control update-required flag of the device is
    set on return. *)
Theorem update_pwm_buffers_block_failure (addr index : Z) (w : world) :
  wf w -> 0 <= index < IS31FL3733_DRIVER_COUNT ->
  pwm_dirty w index = Some true ->
  exists w' tr,
    is31fl3733_update_pwm_buffers addr index w = Ok tt w' tr
    /\ pwm_dirty w' index = Some false
    /\ (Exists (fun c => length (tx_data c) = 17%nat /\ tx_status c <> 0) tr ->
        control_dirty w' index = Some true).
Proof.
  intros Hwf Hindex Hflag.
  destruct (update_pwm_buffers_dirty addr index w Hwf Hindex Hflag)
    as (row & st1 & st2 & r & tr & w' & Hrow & Hlen & Heq & Hblock & Hbus
        & Htwi & Hpwm & Hctl & Hpreq & Hcreq).
  exists w', (select_page addr IS31FL3733_PAGE_PWM st1 st2 ++ tr).
  split; [exact Heq|]. split.
  - unfold pwm_dirty. rewrite Hpreq. apply index_get_insert.
    rewrite (wf_pwm_required _ Hwf). lia.
  - intros Hfail. apply Exists_app in Hfail as [Hsel|Hfail].
    + apply Exists_exists in Hsel as (c & Hc & Hlen17 & _).
      pose proof (select_page_short addr IS31FL3733_PAGE_PWM st1 st2) as Hs.
      rewrite Forall_forall in Hs. specialize (Hs c Hc). lia.
    + destruct r.
      * apply block_write_true in Hblock. subst tr.
        apply Exists_exists in Hfail as (c & Hc & _ & Hst).
        apply list_elem_of_fmap in Hc as (k & -> & _).
        simpl in Hst. contradiction.
      * unfold control_dirty. rewrite Hcreq. apply index_get_insert.
        rewrite (wf_control_required _ Hwf). lia.
Qed.


Lemma initial_world_wf (b : bus_state) : wf (initial_world b).
Proof.
  split; simpl; rewrite ?length_replicate; try reflexivity.
  - apply Forall_replicate. apply length_replicate.
  - apply Forall_replicate. apply length_replicate.
Qed.

Lemma index_get_replicate {A : Type} (n : nat) (x : A) (i : Z) :
  0 <= i < Z.of_nat n -> index_get (replicate n x) i = Some x.
Proof.
  intros Hi. apply index_get_Some. split; [lia|].
  apply lookup_replicate_2. lia.
Qed.

(** C8: [is31fl3733_write_pwm_buffer] sends a 192-byte page as chunks of
    17 bytes, the register offset [16 * j] followed by the 16 bytes stored
    from there, for [j = 0, 1, ...] in this order.  It reports [true] after
    all 12 chunks were acknowledged; it reports [false] at the first chunk
    that was not, and sends nothing after that chunk.  On a bus that
    acknowledges every transfer, from the zero-initialised globals and with
    LED 0 at register 0 of device 0, [set_value 0 128] followed by the flush
    of device 0 performs, after the page selection, exactly these 12 block
    transfers, and byte 0 of the PWM page holds 128. *)
Theorem write_pwm_buffer_chunks (addr : Z) (pwm_buffer : list Z) (w : world) :
  wf w -> length pwm_buffer = 192%nat ->
  (exists r w' tr,
      is31fl3733_write_pwm_buffer addr pwm_buffer w = Ok r w' tr
      /\ bus_trace (bus w) tr (bus w')
      /\ Forall (fun c => length (tx_data c) = 17%nat) tr
      /\ if r
         then tr = map (fun j => chunk_call addr pwm_buffer j 0) (seq 0 12)
         else exists (k : nat) (st : Z),
             (k < 12)%nat /\ st <> 0
             /\ tr = map (fun j => chunk_call addr pwm_buffer j 0) (seq 0 k)
                     ++ [chunk_call addr pwm_buffer k st])
  /\ (always_succeeds -> board_ok ->
      index_get g_is31_leds 0 = Some {| driver := 0; v := 0 |} ->
      forall b : bus_state,
      exists w1 w2 tr,
        is31fl3733_set_value 0 128 (initial_world b) = Ok tt w1 []
        /\ is31fl3733_update_pwm_buffers addr 0 w1
           = Ok tt w2 (select_page addr IS31FL3733_PAGE_PWM 0 0 ++ tr)
        /\ tr = map (fun j =>
                       chunk_call addr (<[0%nat := 128]> (replicate 192 0)) j 0)
                  (seq 0 12)
        /\ length tr = 12%nat
        /\ pwm_at w2 0 0 = Some 128).
Proof.
  intros Hwf Hbuf. split.
  - destruct (write_pwm_buffer_spec addr pwm_buffer w (wf_twi _ Hwf) Hbuf)
      as (r & w' & tr & Heq & [_ Hbus] & Hblock).
    exists r, w', tr. split; [exact Heq|]. split; [exact Hbus|].
    destruct r.
    + apply block_write_true in Hblock. split; [|exact Hblock].
      subst tr. apply Forall_fmap, Forall_forall. intros j Hj.
      apply chunk_call_length; [exact Hbuf|].
      apply elem_of_seq in Hj. lia.
    + apply block_write_false in Hblock as (k & st & Hk & Hst & ->).
      split; [|exists k, st; auto].
      apply Forall_app. split.
      * apply Forall_fmap, Forall_forall. intros j Hj.
        apply chunk_call_length; [exact Hbuf|].
        apply elem_of_seq in Hj. lia.
      * constructor; [|constructor].
        apply chunk_call_length; [exact Hbuf | lia].
  - intros Hok Hboard Hled b.
    pose proof (initial_world_wf b) as Hwf0.
    assert (Hdev : 0 <= 0 < IS31FL3733_DRIVER_COUNT).
    { destruct Hboard as (_ & _ & Hall). rewrite Forall_lookup in Hall.
      apply index_get_Some in Hled as [_ Hled].
      exact (proj1 (Hall _ _ Hled)). }
    assert (Hcount : 0 <= 0 < LED_MATRIX_LED_COUNT).
    { apply index_get_range in Hled. destruct Hboard as (_ & Hlen & _).
      rewrite Hlen in Hled. lia. }
    assert (Hrow0 : index_get (g_pwm_buffer (initial_world b)) 0
                    = Some (replicate 192 0)).
    { simpl. apply index_get_replicate. lia. }
    pose proof (set_value_eq (initial_world b) 0 128 _ _ 0 Hcount Hled Hrow0
                  (index_get_replicate 192 0 0 ltac:(lia))
                  (wf_flag_lengths _ Hwf0)) as Hset.
    change (0 =? 128) with false in Hset. cbv iota in Hset.
    set (w1 := with_pwm_required _ _) in Hset.
    assert (Hwf1 : wf w1).
    { apply wf_pwm_update;
        [exact Hwf0 | apply length_replicate | apply length_insert]. }
    assert (Hflag : pwm_dirty w1 0 = Some true).
    { unfold pwm_dirty. simpl. apply (index_get_insert _ 0).
      rewrite length_replicate. lia. }
    destruct (update_pwm_buffers_dirty addr 0 w1 Hwf1 Hdev Hflag)
      as (row & st1 & st2 & r & tr & w2 & Hrow & Hlen & Heq & Hblock & Htr
          & Htwi & Hpwm & Hctl & Hpreq & Hcreq).
    assert (Hrow1 : row = <[0%nat := 128]> (replicate 192 0)).
    { simpl in Hrow. rewrite (index_get_insert _ 0) in Hrow.
      - injection Hrow as <-. reflexivity.
      - rewrite length_replicate. lia. }
    subst row.
    apply (bus_trace_acked _ _ _ Hok) in Htr.
    apply Forall_app in Htr as [Hsel Htr].
    apply Forall_cons in Hsel as [Hst1 Hsel].
    apply Forall_cons in Hsel as [Hst2 _].
    unfold acked in Hst1, Hst2. simpl in Hst1, Hst2. subst st1 st2.
    rewrite (block_write_acked _ _ _ _ _ _ Hblock Htr) in Hblock.
    apply block_write_true in Hblock.
    exists w1, w2, tr. split; [exact Hset|]. split; [exact Heq|].
    split; [exact Hblock|]. split.
    + rewrite Hblock, length_map, length_seq. reflexivity.
    + unfold pwm_at. rewrite Hpwm, Hrow.
      apply (index_get_insert _ 0). rewrite length_replicate. lia.
Qed.

(** ** [is31fl3733_update_led_control_registers] *)

Lemma register_writes_length (addr i : Z) row tr :
  register_writes addr i row tr -> length tr = length row.
Proof. induction 1; simpl; congruence. Qed.

Lemma update_led_control_registers_loop_spec (addr index : Z) row :
  length row = 24%nat ->
  forall (n k fuel : nat) (w : world),
    (k + n = 24)%nat -> (n < fuel)%nat ->
    length (g_twi_transfer_buffer w) = 20%nat ->
    index_get (g_led_control_registers w) index = Some row ->
    exists w' tr,
      for_loop fuel (Z.of_nat k) (fun i => i <? 24) (fun i => i + 1)
        (update_led_control_registers_body addr index) w
      = Ok None w' tr
      /\ transfers w tr w'
      /\ register_writes addr (Z.of_nat k) (drop k row) tr.
Proof.
  intros Hlen. induction n as [|n IH]; intros k fuel w Hk Hfuel Htwi Hrow;
    (destruct fuel as [|fuel]; [lia|]); rewrite for_loop_S.
  - rewrite (proj2 (Z.ltb_ge (Z.of_nat k) 24)) by lia.
    exists w, []. split; [reflexivity|]. split; [apply transfers_refl|].
    rewrite drop_ge by lia. constructor.
  - rewrite (proj2 (Z.ltb_lt (Z.of_nat k) 24)) by lia.
    destruct (lookup_lt_is_Some_2 row k) as [x Hx]; [lia|].
    rewrite (drop_S _ _ _ Hx).
    destruct (write_register_spec addr (Z.of_nat k) x w)
      as (st & w1 & Heq & Htr1); [lia|].
    assert (Hbody : update_led_control_registers_body addr index
                      (Z.of_nat k) w
                    = Ok None w1 [register_call addr (Z.of_nat k) x st]).
    { unfold update_led_control_registers_body.
      rewrite (bind_Ok _ _ w x w []).
      2:{ rewrite control_load_eq. unfold control_at. rewrite Hrow.
          replace (index_get row (Z.of_nat k)) with (Some x); [reflexivity|].
          symmetry. apply index_get_Some. rewrite Nat2Z.id. split; [lia|].
          exact Hx. }
      rewrite uint8_small by lia.
      rewrite (bind_Ok _ _ _ _ _ _ Heq). simpl. reflexivity. }
    rewrite (bind_Ok _ _ _ _ _ _ Hbody).
    replace (Z.of_nat k + 1) with (Z.of_nat (S k)) by lia.
    destruct (IH (S k) fuel w1) as (w' & tr & Hloop & Htr & Hwrites);
      [lia | lia | | |].
    { rewrite (frame_twi _ _ (proj1 Htr1)). exact Htwi. }
    { rewrite (frame_control _ _ (proj1 Htr1)). exact Hrow. }
    rewrite Hloop. exists w', (register_call addr (Z.of_nat k) x st :: tr).
    split; [reflexivity|]. split.
    + exact (transfers_trans _ _ _ _ _ Htr1 Htr).
    + constructor.
      replace (Z.of_nat k + 1) with (Z.of_nat (S k)) by lia. exact Hwrites.
Qed.

Lemma update_led_control_registers_clean (addr index : Z) (w : world) :
  control_dirty w index = Some false ->
  is31fl3733_update_led_control_registers addr index w = Ok tt w [].
Proof.
  intros Hflag. unfold is31fl3733_update_led_control_registers.
  rewrite (bind_Ok _ _ w false w [])
    by (rewrite control_required_load_eq, Hflag; reflexivity).
  reflexivity.
Qed.

(** A flush that runs: page selection, then one register write per byte of
    the device's control page; the pages stay and the control flag of the
    device is cleared. *)
Lemma update_led_control_registers_dirty (addr index : Z) (w : world) :
  wf w -> 0 <= index < IS31FL3733_DRIVER_COUNT ->
  control_dirty w index = Some true ->
  exists row st1 st2 tr w',
    index_get (g_led_control_registers w) index = Some row
    /\ length row = 24%nat
    /\ is31fl3733_update_led_control_registers addr index w
       = Ok tt w' (select_page addr IS31FL3733_PAGE_LEDCONTROL st1 st2 ++ tr)
    /\ register_writes addr 0 row tr
    /\ bus_trace (bus w)
         (select_page addr IS31FL3733_PAGE_LEDCONTROL st1 st2 ++ tr) (bus w')
    /\ length (g_twi_transfer_buffer w') = 20%nat
    /\ g_pwm_buffer w' = g_pwm_buffer w
    /\ g_led_control_registers w' = g_led_control_registers w
    /\ g_pwm_buffer_update_required w' = g_pwm_buffer_update_required w
    /\ g_led_control_registers_update_required w'
       = <[Z.to_nat index := false]>
           (g_led_control_registers_update_required w).
Proof.
  intros Hwf Hindex Hflag.
  destruct (control_row w index Hwf Hindex) as (row & Hrow & Hlen).
  pose proof (wf_twi _ Hwf) as Htwi.
  destruct (write_register_spec addr IS31FL3733_COMMANDREGISTER_WRITELOCK
              0xC5 w) as (st1 & w1 & Heq1 & Htr1); [lia|].
  pose proof (frame_twi _ _ (proj1 Htr1)) as Htwi1.
  destruct (write_register_spec addr IS31FL3733_COMMANDREGISTER
              IS31FL3733_PAGE_LEDCONTROL w1) as (st2 & w2 & Heq2 & Htr2);
    [lia|].
  pose proof (transfers_trans _ _ _ _ _ Htr1 Htr2) as Htr12.
  pose proof (frame_twi _ _ (proj1 Htr12)) as Htwi2.
  destruct (update_led_control_registers_loop_spec addr index row Hlen
              24 0 25 w2) as (w3 & tr & Heq3 & Htr3 & Hwrites);
    [lia | lia | congruence | |].
  { rewrite (frame_control _ _ (proj1 Htr12)). exact Hrow. }
  pose proof (transfers_trans _ _ _ _ _ Htr12 Htr3) as [Hframe Hbus].
  destruct Hframe as [Hf1 Hf2 Hf3 Hf4 Hf5].
  assert (Hc : 0 <= index
               < Z.of_nat (length
                             (g_led_control_registers_update_required w3))).
  { rewrite Hf5, (wf_control_required _ Hwf). lia. }
  exists row, st1, st2, tr.
  exists (with_control_required w3
            (<[Z.to_nat index := false]>
               (g_led_control_registers_update_required w3))).
  split; [exact Hrow|]. split; [exact Hlen|].
  split; [|split; [exact Hwrites|]].
  - unfold is31fl3733_update_led_control_registers.
    rewrite (bind_Ok _ _ w true w [])
      by (rewrite control_required_load_eq, Hflag; reflexivity).
    rewrite (bind_Ok _ _ _ _ _ _ Heq1), (bind_Ok _ _ _ _ _ _ Heq2).
    change 0 with (Z.of_nat 0) at 1.
    rewrite (bind_Ok _ _ _ _ _ _ Heq3). unfold returned.
    rewrite (control_required_store_eq index false w3 Hc).
    simpl. rewrite !app_nil_r. reflexivity.
  - simpl. rewrite ?Hf1, ?Hf2, ?Hf3, ?Hf4, ?Hf5.
    repeat split; try reflexivity; try exact Hbus; exact Htwi.
Qed.

(** C9: [is31fl3733_update_led_control_registers] returns at once, with
    no bus transfer, when the control update-required flag of the device is
    clear.  When the flag is set it unlocks the command register, selects
    the LED-control page, and then makes 24 register writes, one per byte of
    the device's control page, to registers 0, 1, ..., 23 in this order;
    whatever the bus answered to any of them, it returns with the flag
    cleared and the pages as they were.  With two devices, after a control
    change on an LED of device 1 only, the flush of device 0 makes no
    transfer and the flush of device 1 makes, after the two transfers of the
    page selection, exactly 24 register writes. *)
Theorem update_led_control_registers_writes (addr index : Z) (w : world) :
  wf w -> 0 <= index < IS31FL3733_DRIVER_COUNT ->
  (control_dirty w index = Some false ->
   is31fl3733_update_led_control_registers addr index w = Ok tt w [])
  /\ (control_dirty w index = Some true ->
      exists row st1 st2 tr w',
        index_get (g_led_control_registers w) index = Some row
        /\ is31fl3733_update_led_control_registers addr index w
           = Ok tt w'
               (select_page addr IS31FL3733_PAGE_LEDCONTROL st1 st2 ++ tr)
        /\ register_writes addr 0 row tr
        /\ length tr = 24%nat
        /\ control_dirty w' index = Some false
        /\ g_led_control_registers w' = g_led_control_registers w
        /\ g_pwm_buffer w' = g_pwm_buffer w
        /\ g_pwm_buffer_update_required w' = g_pwm_buffer_update_required w)
  /\ (IS31FL3733_DRIVER_COUNT = 2 -> board_ok ->
      forall (b : bus_state) (i : Z) (enabled : bool) (addr0 addr1 : Z) led,
        index_get g_is31_leds i = Some led -> driver led = 1 ->
        exists w1 w2 row st1 st2 tr,
          is31fl3733_set_led_control_register i enabled (initial_world b)
          = Ok tt w1 []
          /\ is31fl3733_update_led_control_registers addr0 0 w1 = Ok tt w1 []
          /\ is31fl3733_update_led_control_registers addr1 1 w1
             = Ok tt w2
                 (select_page addr1 IS31FL3733_PAGE_LEDCONTROL st1 st2 ++ tr)
          /\ index_get (g_led_control_registers w1) 1 = Some row
          /\ register_writes addr1 0 row tr
          /\ length tr = 24%nat).
Proof.
  intros Hwf Hindex. split; [|split].
  - apply update_led_control_registers_clean.
  - intros Hflag.
    destruct (update_led_control_registers_dirty addr index w Hwf Hindex
                Hflag)
      as (row & st1 & st2 & tr & w' & Hrow & Hlen & Heq & Hwrites & Hbus
          & Htwi & Hpwm & Hctl & Hpreq & Hcreq).
    exists row, st1, st2, tr, w'.
    split; [exact Hrow|]. split; [exact Heq|]. split; [exact Hwrites|].
    split; [|split; [|auto]].
    + rewrite (register_writes_length _ _ _ _ Hwrites). exact Hlen.
    + unfold control_dirty. rewrite Hcreq. apply index_get_insert.
      rewrite (wf_control_required _ Hwf). lia.
  - intros Hcount Hboard b i enabled addr0 addr1 led Hled Hdev.
    pose proof (initial_world_wf b) as Hwf0.
    assert (Hi : 0 <= i < LED_MATRIX_LED_COUNT).
    { apply index_get_range in Hled. destruct Hboard as (_ & Hlen & _).
      rewrite Hlen in Hled. lia. }
    destruct (control_slot (initial_world b) i Hboard Hwf0 Hi)
      as (led' & row & old & Hled' & Hv & Hrow & Hlen & Hold).
    rewrite Hled in Hled'. injection Hled' as <-.
    pose proof (set_control_eq (initial_world b) i enabled led row old
                  Hled Hv Hrow Hold (wf_control_flag_lengths _ Hwf0))
      as Hset.
    set (w1 := with_control_required _ _) in Hset.
    assert (Hwf1 : wf w1).
    { apply wf_control_update;
        [exact Hwf0 | exact Hlen | apply length_insert]. }
    assert (Hclean : control_dirty w1 0 = Some false).
    { unfold control_dirty. apply index_get_Some. split; [lia|].
      cbn -[replicate]. rewrite Hdev, Hcount. reflexivity. }
    assert (Hdirty : control_dirty w1 1 = Some true).
    { unfold control_dirty. apply index_get_Some. split; [lia|].
      cbn -[replicate]. rewrite Hdev, Hcount. reflexivity. }
    destruct (update_led_control_registers_dirty addr1 1 w1 Hwf1
                ltac:(lia) Hdirty)
      as (row1 & st1 & st2 & tr & w2 & Hrow1 & Hlen1 & Heq & Hwrites & _).
    exists w1, w2, row1, st1, st2, tr.
    split; [exact Hset|]. split.
    { apply update_led_control_registers_clean. exact Hclean. }
    split; [exact Heq|]. split; [exact Hrow1|]. split; [exact Hwrites|].
    rewrite (register_writes_length _ _ _ _ Hwrites). exact Hlen1.
Qed.

(** ** Update-required flags against a reference copy *)







(** ** The setters only mark *)





(** * More of the driver *)

Context {chip : chip_settings}.

(** ** One register write *)

Lemma bus_trace_single b c b' :
  bus_trace b [c] b' ->
  tx_status c
  = snd (bus_transmit b (tx_address c) (tx_data c) (tx_timeout c))
  /\ b' = fst (bus_transmit b (tx_address c) (tx_data c) (tx_timeout c)).
Proof.
  intros H. inversion H as [|b0 c0 tr b0' Hst Hrest]; subst.
  inversion Hrest; subst. split; [symmetry; exact Hst | reflexivity].
Qed.

(** X1: [is31fl3733_write_register] makes exactly one transfer, of the two
    bytes [reg; data], to the device's write address with the driver's
    timeout; it returns [true] exactly when the bus answered 0, and it
    leaves the shadow pages and their flags alone. *)
Theorem write_register_transfer (addr reg data : Z) (w : world) :
  wf w ->
  exists st w',
    is31fl3733_write_register addr reg data w
    = Ok (st =? 0) w' [register_call addr reg data st]
    /\ st = snd (bus_transmit (bus w) (uint8 (Z.shiftl addr 1)) [reg; data]
                   IS31FL3733_I2C_TIMEOUT)
    /\ bus w' = fst (bus_transmit (bus w) (uint8 (Z.shiftl addr 1))
                       [reg; data] IS31FL3733_I2C_TIMEOUT)
    /\ frame w w'.
Proof.
  intros Hwf.
  destruct (write_register_spec addr reg data w) as (st & w' & Heq & Hf & Hb).
  { rewrite (wf_twi _ Hwf). lia. }
  apply bus_trace_single in Hb as [Hst Hbus].
  exists st, w'. auto.
Qed.

(** ** What a block write puts on the wire *)

Lemma wire_page_chunks (addr : Z) (pwm_buffer : list Z) (k : nat) :
  wire_page (map (fun j => chunk_call addr pwm_buffer j 0) (seq 0 k))
  = take (16 * k) pwm_buffer.
Proof.
  unfold wire_page. induction k as [|k IH].
  - reflexivity.
  - rewrite seq_S, !map_app, concat_app, IH. cbn [map concat Nat.add].
    rewrite app_nil_r. cbn [chunk_call tx_data].
    change (drop 1 (?x :: ?l)) with l.
    rewrite take_take_drop. f_equal. lia.
Qed.

(** X2: [is31fl3733_write_pwm_buffer] leaves the shadow pages and flags
    alone, and the data bytes of its transfers, put end to end, are the page
    itself when it reports [true]; when it reports [false] the transfers
    before the last were acknowledged and carry the first [16 * k] bytes of
    the page for some [k < 12], so the device may hold a partial page. *)
Theorem write_pwm_buffer_wire (addr : Z) (pwm_buffer : list Z) (w : world) :
  wf w -> length pwm_buffer = 192%nat ->
  exists r w' tr,
    is31fl3733_write_pwm_buffer addr pwm_buffer w = Ok r w' tr
    /\ frame w w'
    /\ if r
       then wire_page tr = pwm_buffer /\ Forall acked tr
       else exists (k : nat) (c : i2c_call),
           (k < 12)%nat /\ tr = take k tr ++ [c] /\ ~ acked c
           /\ Forall acked (take k tr)
           /\ wire_page (take k tr) = take (16 * k) pwm_buffer.
Proof.
  intros Hwf Hbuf.
  destruct (write_pwm_buffer_spec addr pwm_buffer w (wf_twi _ Hwf) Hbuf)
    as (r & w' & tr & Heq & [Hframe _] & Hblock).
  exists r, w', tr. split; [exact Heq|]. split; [exact Hframe|].
  destruct r.
  - apply block_write_true in Hblock. subst tr. split.
    + rewrite wire_page_chunks. apply take_ge. lia.
    + apply Forall_fmap, Forall_forall. intros j _. reflexivity.
  - apply block_write_false in Hblock as (k & st & Hk & Hst & ->).
    exists k, (chunk_call addr pwm_buffer (0 + k) st).
    assert (Hlen : length (map (fun j => chunk_call addr pwm_buffer j 0)
                             (seq 0 k)) = k)
      by (rewrite length_map, length_seq; reflexivity).
    rewrite take_app_length' by (symmetry; exact Hlen).
    split; [exact Hk|]. split; [reflexivity|]. split; [exact Hst|]. split.
    + apply Forall_fmap, Forall_forall. intros j _. reflexivity.
    + apply wire_page_chunks.
Qed.

(** ** [is31fl3733_init] *)

Lemma init_clear_loop_spec (addr top : Z) :
  0 <= top < 256 ->
  forall (n k fuel : nat) (w : world),
    Z.of_nat (k + n) = top + 1 -> (n < fuel)%nat ->
    length (g_twi_transfer_buffer w) = 20%nat ->
    exists w' tr,
      for_loop fuel (Z.of_nat k) (fun i => i <=? top) (fun i => i + 1)
        (init_clear_body addr) w
      = Ok None w' tr
      /\ transfers w tr w'
      /\ register_writes addr (Z.of_nat k) (replicate n 0) tr.
Proof.
  intros Htop. induction n as [|n IH]; intros k fuel w Hk Hfuel Htwi;
    (destruct fuel as [|fuel]; [lia|]); rewrite for_loop_S.
  - rewrite (proj2 (Z.leb_gt (Z.of_nat k) top)) by lia.
    exists w, []. split; [reflexivity|]. split; [apply transfers_refl|].
    constructor.
  - rewrite (proj2 (Z.leb_le (Z.of_nat k) top)) by lia.
    destruct (write_register_spec addr (Z.of_nat k) 0 w)
      as (st & w1 & Heq & Htr1); [lia|].
    assert (Hbody : init_clear_body addr (Z.of_nat k) w
                    = Ok None w1 [register_call addr (Z.of_nat k) 0 st]).
    { unfold init_clear_body. rewrite uint8_small by lia.
      rewrite (bind_Ok _ _ _ _ _ _ Heq). reflexivity. }
    rewrite (bind_Ok _ _ _ _ _ _ Hbody).
    replace (Z.of_nat k + 1) with (Z.of_nat (S k)) by lia.
    destruct (IH (S k) fuel w1) as (w' & tr & Hloop & Htr & Hwrites);
      [lia | lia | |].
    { rewrite (frame_twi _ _ (proj1 Htr1)). exact Htwi. }
    rewrite Hloop. exists w', (register_call addr (Z.of_nat k) 0 st :: tr).
    split; [reflexivity|]. split.
    + exact (transfers_trans _ _ _ _ _ Htr1 Htr).
    + change (replicate (S n) 0) with (0 :: replicate n 0). constructor.
      replace (Z.of_nat k + 1) with (Z.of_nat (S k)) by lia. exact Hwrites.
Qed.

Lemma transfers_twi_length (w w' : world) tr :
  transfers w tr w' ->
  length (g_twi_transfer_buffer w) = 20%nat ->
  (2 <= length (g_twi_transfer_buffer w'))%nat.
Proof. intros [Hf _] Htwi. rewrite (frame_twi _ _ Hf), Htwi. lia. Qed.

(** The whole run of [is31fl3733_init]. *)
Lemma init_spec (addr sync : Z) (w : world) :
  wf w ->
  exists w' s1 s2 s3 s4 s5 s6 s7 s8 s9 s10 tr0 tr1,
    is31fl3733_init addr sync w
    = Ok tt w'
        (select_page addr IS31FL3733_PAGE_LEDCONTROL s1 s2 ++ tr0
         ++ select_page addr IS31FL3733_PAGE_PWM s3 s4 ++ tr1
         ++ select_page addr IS31FL3733_PAGE_FUNCTION s5 s6
         ++ [ register_call addr IS31FL3733_REG_SWPULLUP
                (uint8 IS31FL3733_SWPULLUP) s7;
              register_call addr IS31FL3733_REG_CSPULLUP
                (uint8 IS31FL3733_CSPULLUP) s8;
              register_call addr IS31FL3733_REG_GLOBALCURRENT 0xFF s9;
              register_call addr IS31FL3733_REG_CONFIGURATION
                (configuration_value sync) s10 ])
    /\ register_writes addr 0 (replicate 24 0) tr0
    /\ register_writes addr 0 (replicate 192 0) tr1
    /\ (length tr0 + length tr1 + 10 = 226)%nat
    /\ frame w w'
    /\ exists tr, bus_trace (bus w) tr (bus w')
                  /\ tr = select_page addr IS31FL3733_PAGE_LEDCONTROL s1 s2
                          ++ tr0
                          ++ select_page addr IS31FL3733_PAGE_PWM s3 s4
                          ++ tr1
                          ++ select_page addr IS31FL3733_PAGE_FUNCTION s5 s6
                          ++ [ register_call addr IS31FL3733_REG_SWPULLUP
                                 (uint8 IS31FL3733_SWPULLUP) s7;
                               register_call addr IS31FL3733_REG_CSPULLUP
                                 (uint8 IS31FL3733_CSPULLUP) s8;
                               register_call addr
                                 IS31FL3733_REG_GLOBALCURRENT 0xFF s9;
                               register_call addr
                                 IS31FL3733_REG_CONFIGURATION
                                 (configuration_value sync) s10 ].
Proof.
  intros Hwf. pose proof (wf_twi _ Hwf) as Htwi.
  destruct (write_register_spec addr IS31FL3733_COMMANDREGISTER_WRITELOCK
              0xC5 w) as (s1 & w1 & E1 & T1); [lia|].
  destruct (write_register_spec addr IS31FL3733_COMMANDREGISTER
              IS31FL3733_PAGE_LEDCONTROL w1) as (s2 & w2 & E2 & T2);
    [eauto using transfers_twi_length|].
  pose proof (transfers_trans _ _ _ _ _ T1 T2) as A2.
  destruct (init_clear_loop_spec addr 0x17 ltac:(lia) 24 0 25 w2)
    as (w3 & tr0 & E3 & T3 & R0); [reflexivity | lia | |].
  { rewrite (frame_twi _ _ (proj1 A2)). exact Htwi. }
  pose proof (transfers_trans _ _ _ _ _ A2 T3) as A3.
  destruct (write_register_spec addr IS31FL3733_COMMANDREGISTER_WRITELOCK
              0xC5 w3) as (s3 & w4 & E4 & T4);
    [eauto using transfers_twi_length|].
  pose proof (transfers_trans _ _ _ _ _ A3 T4) as A4.
  destruct (write_register_spec addr IS31FL3733_COMMANDREGISTER
              IS31FL3733_PAGE_PWM w4) as (s4 & w5 & E5 & T5);
    [eauto using transfers_twi_length|].
  pose proof (transfers_trans _ _ _ _ _ A4 T5) as A5.
  destruct (init_clear_loop_spec addr 0xBF ltac:(lia) 192 0 193 w5)
    as (w6 & tr1 & E6 & T6 & R1); [reflexivity | lia | |].
  { rewrite (frame_twi _ _ (proj1 A5)). exact Htwi. }
  pose proof (transfers_trans _ _ _ _ _ A5 T6) as A6.
  destruct (write_register_spec addr IS31FL3733_COMMANDREGISTER_WRITELOCK
              0xC5 w6) as (s5 & w7 & E7 & T7);
    [eauto using transfers_twi_length|].
  pose proof (transfers_trans _ _ _ _ _ A6 T7) as A7.
  destruct (write_register_spec addr IS31FL3733_COMMANDREGISTER
              IS31FL3733_PAGE_FUNCTION w7) as (s6 & w8 & E8 & T8);
    [eauto using transfers_twi_length|].
  pose proof (transfers_trans _ _ _ _ _ A7 T8) as A8.
  destruct (write_register_spec addr IS31FL3733_REG_SWPULLUP
              (uint8 IS31FL3733_SWPULLUP) w8) as (s7 & w9 & E9 & T9);
    [eauto using transfers_twi_length|].
  pose proof (transfers_trans _ _ _ _ _ A8 T9) as A9.
  destruct (write_register_spec addr IS31FL3733_REG_CSPULLUP
              (uint8 IS31FL3733_CSPULLUP) w9) as (s8 & w10 & E10 & T10);
    [eauto using transfers_twi_length|].
  pose proof (transfers_trans _ _ _ _ _ A9 T10) as A10.
  destruct (write_register_spec addr IS31FL3733_REG_GLOBALCURRENT
              IS31FL3733_GLOBALCURRENT w10) as (s9 & w11 & E11 & T11);
    [eauto using transfers_twi_length|].
  pose proof (transfers_trans _ _ _ _ _ A10 T11) as A11.
  destruct (write_register_spec addr IS31FL3733_REG_CONFIGURATION
              (configuration_value sync) w11) as (s10 & w12 & E12 & T12);
    [eauto using transfers_twi_length|].
  pose proof (transfers_trans _ _ _ _ _ A11 T12) as A12.
  exists w12, s1, s2, s3, s4, s5, s6, s7, s8, s9, s10, tr0, tr1.
  split; [|split; [exact R0|split; [exact R1|split; [|split;
    [exact (proj1 A12)|]]]]].
  - unfold is31fl3733_init.
    rewrite (bind_Ok _ _ _ _ _ _ E1), (bind_Ok _ _ _ _ _ _ E2).
    change 0 with (Z.of_nat 0) at 1.
    rewrite (bind_Ok _ _ _ _ _ _ E3). unfold returned at 1.
    rewrite (bind_Ok _ _ _ _ _ _ E4), (bind_Ok _ _ _ _ _ _ E5).
    change 0 with (Z.of_nat 0) at 1.
    rewrite (bind_Ok _ _ _ _ _ _ E6). unfold returned at 1.
    rewrite (bind_Ok _ _ _ _ _ _ E7), (bind_Ok _ _ _ _ _ _ E8).
    rewrite (bind_Ok _ _ _ _ _ _ E9), (bind_Ok _ _ _ _ _ _ E10).
    rewrite (bind_Ok _ _ _ _ _ _ E11), (bind_Ok _ _ _ _ _ _ E12).
    unfold wait_ms, ret, select_page. simpl. reflexivity.
  - rewrite (register_writes_length _ _ _ _ R0).
    rewrite (register_writes_length _ _ _ _ R1).
    rewrite !length_replicate. reflexivity.
  - eexists. split; [exact (proj2 A12)|].
    unfold select_page. simpl. rewrite <- !app_assoc. reflexivity.
Qed.

(** X3: [is31fl3733_init] makes the same 226 register writes whatever the
    bus answers to any of them: unlock and select the LED-control page, a
    zero to each of its registers 0..23; unlock and select the PWM page, a
    zero to each of its registers 0..191; unlock and select the function
    page, then the two pull-up settings, the global current, and last of all
    the configuration register.  It changes no shadow page and no flag. *)
Theorem init_sequence (addr sync : Z) (w : world) :
  wf w ->
  exists w' s1 s2 s3 s4 s5 s6 s7 s8 s9 s10 tr0 tr1,
    is31fl3733_init addr sync w
    = Ok tt w'
        (select_page addr IS31FL3733_PAGE_LEDCONTROL s1 s2 ++ tr0
         ++ select_page addr IS31FL3733_PAGE_PWM s3 s4 ++ tr1
         ++ select_page addr IS31FL3733_PAGE_FUNCTION s5 s6
         ++ [ register_call addr IS31FL3733_REG_SWPULLUP
                (uint8 IS31FL3733_SWPULLUP) s7;
              register_call addr IS31FL3733_REG_CSPULLUP
                (uint8 IS31FL3733_CSPULLUP) s8;
              register_call addr IS31FL3733_REG_GLOBALCURRENT 0xFF s9;
              register_call addr IS31FL3733_REG_CONFIGURATION
                (configuration_value sync) s10 ])
    /\ register_writes addr 0 (replicate 24 0) tr0
    /\ register_writes addr 0 (replicate 192 0) tr1
    /\ (length tr0 + length tr1 + 10 = 226)%nat
    /\ frame w w'.
Proof.
  intros Hwf.
  destruct (init_spec addr sync w Hwf)
    as (w' & s1 & s2 & s3 & s4 & s5 & s6 & s7 & s8 & s9 & s10 & tr0 & tr1
        & Heq & R0 & R1 & Hlen & Hframe & _).
  exists w', s1, s2, s3, s4, s5, s6, s7, s8, s9, s10, tr0, tr1. auto.
Qed.

Lemma configuration_value_testbit (sync k : Z) :
  0 <= k < 8 ->
  Z.testbit (configuration_value sync) k
  = (Z.testbit sync (k - 6) && Z.testbit 3 (k - 6))
    || (Z.testbit IS31FL3733_PWM_FREQUENCY (k - 3) && Z.testbit 7 (k - 3))
    || Z.testbit 1 k.
Proof.
  intros Hk. unfold configuration_value. rewrite uint8_testbit.
  rewrite (proj2 (Z.ltb_lt k 8)) by lia.
  rewrite !Z.lor_spec, !Z.shiftl_spec, !Z.land_spec by lia. reflexivity.
Qed.

(** X4: the byte [is31fl3733_init] writes to the configuration register
    fits a register; its bit 0 (software shutdown off) is set, bits 1 and 2
    are clear, bits 3..5 are the low three bits of the PWM frequency
    selector and bits 6..7 the low two bits of [sync]. *)
Theorem configuration_value_bits (sync : Z) :
  is_byte (configuration_value sync)
  /\ Z.testbit (configuration_value sync) 0 = true
  /\ Z.testbit (configuration_value sync) 1 = false
  /\ Z.testbit (configuration_value sync) 2 = false
  /\ (forall j, 0 <= j < 3 ->
        Z.testbit (configuration_value sync) (3 + j)
        = Z.testbit IS31FL3733_PWM_FREQUENCY j)
  /\ (forall j, 0 <= j < 2 ->
        Z.testbit (configuration_value sync) (6 + j) = Z.testbit sync j).
Proof.
  split; [apply uint8_is_byte|].
  split; [|split; [|split; [|split]]].
  - rewrite configuration_value_testbit by lia.
    rewrite !Z.testbit_neg_r by lia. reflexivity.
  - rewrite configuration_value_testbit by lia.
    rewrite !Z.testbit_neg_r by lia. reflexivity.
  - rewrite configuration_value_testbit by lia.
    rewrite !Z.testbit_neg_r by lia. reflexivity.
  - intros j Hj. rewrite configuration_value_testbit by lia.
    rewrite (Z.testbit_neg_r sync) by lia.
    replace (3 + j - 3) with j by lia.
    assert (Hcases : j = 0 \/ j = 1 \/ j = 2) by lia.
    destruct Hcases as [-> | [-> | ->]];
      change (Z.testbit 7 _) with true; change (Z.testbit 1 _) with false;
      rewrite andb_true_r, orb_false_r; reflexivity.
  - intros j Hj. rewrite configuration_value_testbit by lia.
    replace (6 + j - 6) with j by lia.
    assert (Hcases : j = 0 \/ j = 1) by lia.
    destruct Hcases as [-> | ->];
      change (Z.testbit 3 _) with true; change (Z.testbit 7 _) with false;
      change (Z.testbit 1 _) with false;
      rewrite andb_true_r, andb_false_r, !orb_false_r; reflexivity.
Qed.

(** ** More on [is31fl3733_set_value] and [is31fl3733_set_value_all] *)

Lemma index_get_insert_ne {A : Type} (l : list A) (i j : Z) (x : A) :
  0 <= i -> i <> j -> index_get (<[Z.to_nat i := x]> l) j = index_get l j.
Proof.
  intros Hi Hne. unfold index_get. case_bool_decide; [|reflexivity].
  apply list_lookup_insert_ne. lia.
Qed.

Lemma set_value_same (w : world) (i value : Z) led :
  0 <= i < LED_MATRIX_LED_COUNT ->
  index_get g_is31_leds i = Some led ->
  pwm_at w (driver led) (v led) = Some value ->
  is31fl3733_set_value i value w = Ok tt w [].
Proof.
  intros Hi Hled Hat. unfold is31fl3733_set_value.
  rewrite (proj2 (Z.leb_le 0 i)), (proj2 (Z.ltb_lt i LED_MATRIX_LED_COUNT))
    by lia.
  cbn [andb].
  rewrite (bind_Ok _ _ w led w []) by (rewrite Hled; reflexivity).
  rewrite (bind_Ok _ _ w value w [])
    by (rewrite pwm_load_eq, Hat; reflexivity).
  rewrite Z.eqb_refl. reflexivity.
Qed.

(** The whole effect of a call on an LED of the table. *)
Lemma set_value_effect (w : world) (i value : Z) led :
  board_ok -> wf w -> 0 <= i < LED_MATRIX_LED_COUNT ->
  index_get g_is31_leds i = Some led ->
  exists w',
    is31fl3733_set_value i value w = Ok tt w' []
    /\ wf w'
    /\ (forall d off,
          pwm_at w' d off
          = if decide (d = driver led /\ off = v led)
            then Some value else pwm_at w d off)
    /\ (pwm_at w (driver led) (v led) <> Some value ->
        pwm_dirty w' (driver led) = Some true)
    /\ (forall d, d <> driver led -> pwm_dirty w' d = pwm_dirty w d)
    /\ g_led_control_registers w' = g_led_control_registers w
    /\ g_led_control_registers_update_required w'
       = g_led_control_registers_update_required w
    /\ g_twi_transfer_buffer w' = g_twi_transfer_buffer w
    /\ bus w' = bus w.
Proof.
  intros Hb Hwf Hi Hled.
  destruct (pwm_slot w i Hb Hwf Hi)
    as (led' & row & old & Hled' & Hrow & Hold).
  rewrite Hled in Hled'. injection Hled' as <-.
  pose proof (set_value_eq w i value led row old Hi Hled Hrow Hold
                (wf_flag_lengths w Hwf)) as Heq.
  pose proof (index_get_range _ _ _ Hrow) as Hd.
  pose proof (index_get_range _ _ _ Hold) as Hoff.
  assert (Hat : pwm_at w (driver led) (v led) = Some old).
  { unfold pwm_at. rewrite Hrow. exact Hold. }
  destruct (old =? value) eqn:Hcmp.
  - apply Z.eqb_eq in Hcmp. subst old.
    exists w. split; [exact Heq|]. split; [exact Hwf|].
    split; [|split; [|auto 10]].
    + intros d off. case_decide as Hslot; [|reflexivity].
      destruct Hslot as [-> ->]. exact Hat.
    + intros Hne. contradiction.
  - eexists. split; [exact Heq|]. split; [|split; [|split; [|split]]].
    + apply wf_pwm_update; [exact Hwf | | apply length_insert].
      destruct (pwm_row w (driver led) Hwf) as (row' & Hrow' & Hlen);
        [destruct (table_entry i Hb Hi) as (l & Hl & Hdl & _); congruence|].
      congruence.
    + intros d off. unfold pwm_at. cbn [g_pwm_buffer with_pwm_required
                                          with_pwm].
      destruct (decide (d = driver led)) as [->|Hdne].
      * rewrite index_get_insert by exact Hd. rewrite Hrow.
        destruct (decide (off = v led)) as [->|Hone].
        -- rewrite index_get_insert by exact Hoff.
           rewrite decide_True by auto. reflexivity.
        -- rewrite index_get_insert_ne by (try lia; congruence).
           rewrite decide_False by tauto. reflexivity.
      * rewrite index_get_insert_ne by (try lia; congruence).
        rewrite decide_False by tauto. reflexivity.
    + intros _. unfold pwm_dirty. cbn [g_pwm_buffer_update_required
                                         with_pwm_required].
      apply index_get_insert. rewrite (wf_flag_lengths w Hwf). exact Hd.
    + intros d Hdne. unfold pwm_dirty.
      cbn [g_pwm_buffer_update_required with_pwm_required].
      apply index_get_insert_ne; [lia | congruence].
    + auto.
Qed.

(** X5: a call of [is31fl3733_set_value] on an LED of the table makes no
    bus transfer and changes one slot of the PWM pages at most: afterwards
    the slot of the LED holds the value and every other slot of every device
    holds what it held.  If the slot held another value, the PWM flag of the
    LED's device is set; the PWM flags of the other devices, the control
    pages and the control flags stay as they were. *)
Theorem set_value_one_slot (w : world) (i value : Z) :
  board_ok -> wf w -> 0 <= i < LED_MATRIX_LED_COUNT ->
  exists led w',
    index_get g_is31_leds i = Some led
    /\ is31fl3733_set_value i value w = Ok tt w' []
    /\ (forall d off,
          pwm_at w' d off
          = if decide (d = driver led /\ off = v led)
            then Some value else pwm_at w d off)
    /\ (pwm_at w (driver led) (v led) <> Some value ->
        pwm_dirty w' (driver led) = Some true)
    /\ (forall d, d <> driver led -> pwm_dirty w' d = pwm_dirty w d)
    /\ g_led_control_registers w' = g_led_control_registers w
    /\ g_led_control_registers_update_required w'
       = g_led_control_registers_update_required w.
Proof.
  intros Hb Hwf Hi.
  destruct (table_entry i Hb Hi) as (led & Hled & _).
  destruct (set_value_effect w i value led Hb Hwf Hi Hled)
    as (w' & Heq & _ & Hat & Hdirty & Hother & Hc & Hcr & _).
  exists led, w'. auto 10.
Qed.

(** The loop of [is31fl3733_set_value_all] carries any property that each
    single call carries from one index to the next. *)
Lemma set_value_all_loop_inv (value : Z) (P : nat -> world -> Prop) :
  0 <= LED_MATRIX_LED_COUNT ->
  (forall (k : nat) (w : world),
      Z.of_nat k < LED_MATRIX_LED_COUNT -> P k w ->
      exists w', is31fl3733_set_value (Z.of_nat k) value w = Ok tt w' []
                 /\ P (S k) w') ->
  forall (n k fuel : nat) (w : world),
    (k + n = Z.to_nat LED_MATRIX_LED_COUNT)%nat -> (n < fuel)%nat -> P k w ->
    exists w',
      for_loop fuel (Z.of_nat k) (fun i => i <? LED_MATRIX_LED_COUNT)
        (fun i => i + 1) (set_value_all_body value) w
      = Ok None w' []
      /\ P (k + n)%nat w'.
Proof.
  intros Hcount Hstep. induction n as [|n IH]; intros k fuel w Hk Hfuel HP;
    (destruct fuel as [|fuel]; [lia|]); rewrite for_loop_S.
  - rewrite (proj2 (Z.ltb_ge (Z.of_nat k) LED_MATRIX_LED_COUNT)) by lia.
    exists w. split; [reflexivity|]. rewrite Nat.add_0_r. exact HP.
  - rewrite (proj2 (Z.ltb_lt (Z.of_nat k) LED_MATRIX_LED_COUNT)) by lia.
    destruct (Hstep k w ltac:(lia) HP) as (w1 & Hset & HP1).
    assert (Hbody : set_value_all_body value (Z.of_nat k) w = Ok None w1 []).
    { unfold set_value_all_body. rewrite (bind_Ok _ _ _ _ _ _ Hset).
      reflexivity. }
    rewrite (bind_Ok _ _ _ _ _ _ Hbody).
    replace (Z.of_nat k + 1) with (Z.of_nat (S k)) by lia.
    destruct (IH (S k) fuel w1) as (w' & Hloop & HP'); [lia | lia | auto |].
    rewrite Hloop. exists w'. split; [reflexivity|].
    replace (k + S n)%nat with (S k + n)%nat by lia. exact HP'.
Qed.

Lemma set_value_all_inv (value : Z) (P : nat -> world -> Prop) (w : world) :
  0 <= LED_MATRIX_LED_COUNT ->
  (forall (k : nat) (w : world),
      Z.of_nat k < LED_MATRIX_LED_COUNT -> P k w ->
      exists w', is31fl3733_set_value (Z.of_nat k) value w = Ok tt w' []
                 /\ P (S k) w') ->
  P 0%nat w ->
  exists w',
    is31fl3733_set_value_all value w = Ok tt w' []
    /\ P (Z.to_nat LED_MATRIX_LED_COUNT) w'.
Proof.
  intros Hcount Hstep HP.
  destruct (set_value_all_loop_inv value P Hcount Hstep
              (Z.to_nat LED_MATRIX_LED_COUNT) 0
              (S (Z.to_nat LED_MATRIX_LED_COUNT)) w)
    as (w' & Hloop & HP'); [lia | lia | exact HP |].
  exists w'. split; [|exact HP'].
  unfold is31fl3733_set_value_all. change 0 with (Z.of_nat 0) at 1.
  rewrite (bind_Ok _ _ _ _ _ _ Hloop). reflexivity.
Qed.

(** The whole effect of [is31fl3733_set_value_all]. *)
Lemma set_value_all_effect (w : world) (value : Z) :
  board_ok -> wf w ->
  exists w',
    is31fl3733_set_value_all value w = Ok tt w' []
    /\ wf w'
    /\ (forall i led,
          index_get g_is31_leds i = Some led ->
          pwm_at w' (driver led) (v led) = Some value)
    /\ (forall d off,
          (forall i led, index_get g_is31_leds i = Some led ->
                         ~ (d = driver led /\ off = v led)) ->
          pwm_at w' d off = pwm_at w d off)
    /\ g_led_control_registers w' = g_led_control_registers w
    /\ g_led_control_registers_update_required w'
       = g_led_control_registers_update_required w.
Proof.
  intros Hb Hwf. pose proof Hb as (Hcount & Htable & _).
  destruct (set_value_all_inv value
              (fun k w' =>
                 wf w'
                 /\ (forall i led,
                       0 <= i < Z.of_nat k ->
                       index_get g_is31_leds i = Some led ->
                       pwm_at w' (driver led) (v led) = Some value)
                 /\ (forall d off,
                       (forall i led, index_get g_is31_leds i = Some led ->
                                      ~ (d = driver led /\ off = v led)) ->
                       pwm_at w' d off = pwm_at w d off)
                 /\ g_led_control_registers w' = g_led_control_registers w
                 /\ g_led_control_registers_update_required w'
                    = g_led_control_registers_update_required w) w Hcount)
    as (w' & Heq & Hwf' & Hfilled & Hrest & Hc & Hcr).
  - intros k w0 Hk (Hwf0 & Hfilled & Hrest & Hc & Hcr).
    destruct (table_entry (Z.of_nat k) Hb ltac:(lia)) as (led & Hled & _).
    destruct (set_value_effect w0 (Z.of_nat k) value led Hb Hwf0
                ltac:(lia) Hled)
      as (w1 & Heq & Hwf1 & Hat & _ & _ & Hc1 & Hcr1 & _).
    exists w1. split; [exact Heq|]. split; [exact Hwf1|].
    split; [|split; [|split; congruence]].
    + intros i led' Hi Hled'. rewrite Hat. case_decide; [reflexivity|].
      apply (Hfilled i); [|exact Hled'].
      destruct (decide (i = Z.of_nat k)) as [->|Hne]; [|lia].
      rewrite Hled in Hled'. injection Hled' as <-. tauto.
    + intros d off Hfree. rewrite Hat.
      rewrite decide_False by exact (Hfree _ _ Hled). auto.
  - split; [exact Hwf|]. split; [intros; lia | auto].
  - exists w'. split; [exact Heq|]. split; [exact Hwf'|].
    split; [|auto]. intros i led Hled. apply (Hfilled i); [|exact Hled].
    apply index_get_range in Hled. rewrite Htable in Hled. lia.
Qed.

(** X6: [is31fl3733_set_value_all] makes no bus transfer; afterwards the
    slot of every LED of the table holds the value, a slot that belongs to
    no LED holds what it held, and the control pages and control flags are
    as they were. *)
Theorem set_value_all_fills (w : world) (value : Z) :
  board_ok -> wf w ->
  exists w',
    is31fl3733_set_value_all value w = Ok tt w' []
    /\ (forall i led,
          index_get g_is31_leds i = Some led ->
          pwm_at w' (driver led) (v led) = Some value)
    /\ (forall d off,
          (forall i led, index_get g_is31_leds i = Some led ->
                         ~ (d = driver led /\ off = v led)) ->
          pwm_at w' d off = pwm_at w d off)
    /\ g_led_control_registers w' = g_led_control_registers w
    /\ g_led_control_registers_update_required w'
       = g_led_control_registers_update_required w.
Proof.
  intros Hb Hwf.
  destruct (set_value_all_effect w value Hb Hwf) as (w' & Heq & _ & Hrest).
  exists w'. split; assumption.
Qed.

(** X7: when the slot of every LED of the table already holds the value,
    [is31fl3733_set_value_all] changes nothing at all; so a second call with
    the same value, right after a first, leaves the world of the first call
    as it is and sets no flag. *)
Theorem set_value_all_twice (w : world) (value : Z) :
  board_ok -> wf w ->
  ((forall i led,
       index_get g_is31_leds i = Some led ->
       pwm_at w (driver led) (v led) = Some value) ->
   is31fl3733_set_value_all value w = Ok tt w [])
  /\ exists w1,
       is31fl3733_set_value_all value w = Ok tt w1 []
       /\ is31fl3733_set_value_all value w1 = Ok tt w1 [].
Proof.
  intros Hb Hwf. pose proof Hb as (Hcount & Htable & _).
  assert (Hsame : forall w0 : world,
             (forall i led,
                 index_get g_is31_leds i = Some led ->
                 pwm_at w0 (driver led) (v led) = Some value) ->
             is31fl3733_set_value_all value w0 = Ok tt w0 []).
  { intros w0 Hfilled.
    destruct (set_value_all_inv value (fun _ w' => w' = w0) w0 Hcount)
      as (w' & Heq & ->); [|reflexivity|exact Heq].
    intros k w1 Hk ->. exists w0. split; [|reflexivity].
    destruct (table_entry (Z.of_nat k) Hb ltac:(lia)) as (led & Hled & _).
    apply (set_value_same w0 (Z.of_nat k) value led); [lia | exact Hled |].
    exact (Hfilled _ _ Hled). }
  split; [apply Hsame|].
  destruct (set_value_all_effect w value Hb Hwf)
    as (w1 & Heq & _ & Hfilled & _).
  exists w1. split; [exact Heq|]. apply Hsame. exact Hfilled.
Qed.

(** ** More on [is31fl3733_set_led_control_register] *)

(** Two updates of the same bit in a row leave the byte that the second
    alone would leave. *)
Lemma control_byte_last_wins (old b : Z) (x y : bool) :
  0 <= b < 8 ->
  (if y
   then uint8 (Z.lor (if x then uint8 (Z.lor old (Z.shiftl 1 b))
                      else uint8 (Z.land old (Z.lnot (Z.shiftl 1 b))))
                 (Z.shiftl 1 b))
   else uint8 (Z.land (if x then uint8 (Z.lor old (Z.shiftl 1 b))
                       else uint8 (Z.land old (Z.lnot (Z.shiftl 1 b))))
                 (Z.lnot (Z.shiftl 1 b))))
  = if y then uint8 (Z.lor old (Z.shiftl 1 b))
    else uint8 (Z.land old (Z.lnot (Z.shiftl 1 b))).
Proof.
  intros Hb. destruct x, y; apply Z.bits_inj'; intros k Hk;
    rewrite !uint8_testbit; destruct (k <? 8) eqn:Hlt; try reflexivity;
    rewrite ?Z.lor_spec, ?Z.land_spec, ?Z.lnot_spec by exact Hk;
    rewrite ?uint8_testbit, ?Hlt;
    rewrite ?Z.lor_spec, ?Z.land_spec, ?Z.lnot_spec by exact Hk;
    destruct (Z.testbit old k), (Z.testbit (Z.shiftl 1 b) k); reflexivity.
Qed.

(** X8: two calls of [is31fl3733_set_led_control_register] on the same LED
    in a row leave the world exactly as the second call alone leaves it: the
    last request for an LED wins, and nothing of the first remains. *)
Theorem set_led_control_register_last_wins (w : world) (i : Z) (x y : bool) :
  board_ok -> wf w -> 0 <= i < LED_MATRIX_LED_COUNT ->
  exists w1 w2,
    is31fl3733_set_led_control_register i x w = Ok tt w1 []
    /\ is31fl3733_set_led_control_register i y w1 = Ok tt w2 []
    /\ is31fl3733_set_led_control_register i y w = Ok tt w2 [].
Proof.
  intros Hb Hwf Hi.
  destruct (control_slot w i Hb Hwf Hi)
    as (led & row & old & Hled & Hv & Hrow & Hlen & Hold).
  pose proof (wf_control_flag_lengths w Hwf) as Hflags.
  assert (Hbit : 0 <= v led mod 8 < 8) by (apply Z.mod_pos_bound; lia).
  pose proof (set_control_eq w i x led row old Hled Hv Hrow Hold Hflags)
    as Heq1.
  pose proof (set_control_eq w i y led row old Hled Hv Hrow Hold Hflags)
    as Heq.
  set (new := if x then _ else _) in Heq1.
  set (row1 := <[Z.to_nat (v led / 8) := new]> row) in *.
  set (w1 := with_control_required _ _) in Heq1.
  assert (Hrow1 : index_get (g_led_control_registers w1) (driver led)
                  = Some row1).
  { apply (index_get_insert _ (driver led)). eauto using index_get_range. }
  assert (Hnew : index_get row1 (v led / 8) = Some new).
  { apply index_get_insert. eauto using index_get_range. }
  assert (Hflags1 : length (g_led_control_registers_update_required w1)
                    = length (g_led_control_registers w1)).
  { cbn [w1 g_led_control_registers_update_required g_led_control_registers
           with_control_required with_control].
    rewrite !length_insert. exact Hflags. }
  pose proof (set_control_eq w1 i y led row1 new Hled Hv Hrow1 Hnew Hflags1)
    as Heq2.
  exists w1. eexists. split; [exact Heq1|]. split; [exact Heq2|].
  rewrite Heq. f_equal.
  unfold w1, with_control_required, with_control. cbn.
  unfold new. rewrite control_byte_last_wins by exact Hbit.
  unfold row1. rewrite !list_insert_insert_eq. reflexivity.
Qed.

(** ** How the flushes compose *)

Lemma wf_after_flush (w w' : world) :
  wf w ->
  length (g_twi_transfer_buffer w') = 20%nat ->
  g_pwm_buffer w' = g_pwm_buffer w ->
  g_led_control_registers w' = g_led_control_registers w ->
  length (g_pwm_buffer_update_required w')
  = length (g_pwm_buffer_update_required w) ->
  length (g_led_control_registers_update_required w')
  = length (g_led_control_registers_update_required w) ->
  wf w'.
Proof. intros [] Htwi Hp Hc Hpr Hcr. split; congruence. Qed.

Lemma update_pwm_buffers_clears (addr index : Z) (w : world) :
  wf w -> 0 <= index < IS31FL3733_DRIVER_COUNT ->
  exists w' tr,
    is31fl3733_update_pwm_buffers addr index w = Ok tt w' tr
    /\ wf w'
    /\ pwm_dirty w' index = Some false
    /\ bus_trace (bus w) tr (bus w')
    /\ g_pwm_buffer w' = g_pwm_buffer w
    /\ g_led_control_registers w' = g_led_control_registers w
    /\ (forall d, d <> index ->
          pwm_dirty w' d = pwm_dirty w d
          /\ control_dirty w' d = control_dirty w d).
Proof.
  intros Hwf Hd.
  destruct (pwm_dirty_in_range w index Hwf Hd) as [[|] Hflag].
  - destruct (update_pwm_buffers_dirty addr index w Hwf Hd Hflag)
      as (row & st1 & st2 & r & tr & w' & Hrow & Hlen & Heq & Hblock & Hbus
          & Htwi & Hpwm & Hctl & Hpreq & Hcreq).
    assert (Hwf' : wf w').
    { apply (wf_after_flush w w' Hwf Htwi Hpwm Hctl).
      - rewrite Hpreq. apply length_insert.
      - rewrite Hcreq. destruct r; [reflexivity | apply length_insert]. }
    exists w', (select_page addr IS31FL3733_PAGE_PWM st1 st2 ++ tr).
    split; [exact Heq|]. split; [exact Hwf'|]. split.
    { unfold pwm_dirty. rewrite Hpreq. apply index_get_insert.
      rewrite (wf_pwm_required _ Hwf). lia. }
    split; [exact Hbus|]. split; [exact Hpwm|]. split; [exact Hctl|].
    intros d Hne. unfold pwm_dirty, control_dirty. rewrite Hpreq, Hcreq.
    split; [apply index_get_insert_ne; [lia | congruence]|].
    destruct r; [reflexivity|].
    apply index_get_insert_ne; [lia | congruence].
  - exists w, []. split; [apply update_pwm_buffers_clean; exact Hflag|].
    split; [exact Hwf|]. split; [exact Hflag|].
    split; [constructor | auto].
Qed.

Lemma update_led_control_registers_clears (addr index : Z) (w : world) :
  wf w -> 0 <= index < IS31FL3733_DRIVER_COUNT ->
  exists w' tr,
    is31fl3733_update_led_control_registers addr index w = Ok tt w' tr
    /\ wf w'
    /\ control_dirty w' index = Some false
    /\ bus_trace (bus w) tr (bus w')
    /\ g_pwm_buffer w' = g_pwm_buffer w
    /\ g_led_control_registers w' = g_led_control_registers w
    /\ g_pwm_buffer_update_required w' = g_pwm_buffer_update_required w
    /\ (forall d, d <> index -> control_dirty w' d = control_dirty w d).
Proof.
  intros Hwf Hd.
  destruct (control_dirty_in_range w index Hwf Hd) as [[|] Hflag].
  - destruct (update_led_control_registers_dirty addr index w Hwf Hd Hflag)
      as (row & st1 & st2 & tr & w' & Hrow & Hlen & Heq & Hwrites & Hbus
          & Htwi & Hpwm & Hctl & Hpreq & Hcreq).
    assert (Hwf' : wf w').
    { apply (wf_after_flush w w' Hwf Htwi Hpwm Hctl).
      - rewrite Hpreq. reflexivity.
      - rewrite Hcreq. apply length_insert. }
    exists w', (select_page addr IS31FL3733_PAGE_LEDCONTROL st1 st2 ++ tr).
    split; [exact Heq|]. split; [exact Hwf'|]. split.
    { unfold control_dirty. rewrite Hcreq. apply index_get_insert.
      rewrite (wf_control_required _ Hwf). lia. }
    split; [exact Hbus|]. split; [exact Hpwm|]. split; [exact Hctl|].
    split; [exact Hpreq|].
    intros d Hne. unfold control_dirty. rewrite Hcreq.
    apply index_get_insert_ne; [lia | congruence].
  - exists w, [].
    split; [apply update_led_control_registers_clean; exact Hflag|].
    split; [exact Hwf|]. split; [exact Hflag|].
    split; [constructor | auto].
Qed.

(** X9: a PWM flush is never retried by the driver.  Whatever the bus
    answered to a first [is31fl3733_update_pwm_buffers], a second one on
    the same device right after it makes no transfer and changes nothing. *)
Theorem update_pwm_buffers_twice (addr addr' index : Z) (w : world) :
  wf w -> 0 <= index < IS31FL3733_DRIVER_COUNT ->
  exists w1 tr,
    is31fl3733_update_pwm_buffers addr index w = Ok tt w1 tr
    /\ is31fl3733_update_pwm_buffers addr' index w1 = Ok tt w1 [].
Proof.
  intros Hwf Hd.
  destruct (update_pwm_buffers_clears addr index w Hwf Hd)
    as (w1 & tr & Heq & _ & Hflag & _).
  exists w1, tr. split; [exact Heq|].
  apply update_pwm_buffers_clean. exact Hflag.
Qed.

(** X10: likewise a second [is31fl3733_update_led_control_registers] on
    the same device, right after a first, makes no transfer and changes
    nothing, whatever the bus answered to the first. *)
Theorem update_led_control_registers_twice (addr addr' index : Z)
    (w : world) :
  wf w -> 0 <= index < IS31FL3733_DRIVER_COUNT ->
  exists w1 tr,
    is31fl3733_update_led_control_registers addr index w = Ok tt w1 tr
    /\ is31fl3733_update_led_control_registers addr' index w1 = Ok tt w1 [].
Proof.
  intros Hwf Hd.
  destruct (update_led_control_registers_clears addr index w Hwf Hd)
    as (w1 & tr & Heq & _ & Hflag & _).
  exists w1, tr. split; [exact Heq|].
  apply update_led_control_registers_clean. exact Hflag.
Qed.

(** X11: the flushes touch no shadow page, and only the flags of the
    device they are called for: after either flush both pages of every
    device are as before, and so are the flags of every other device; the
    control flush leaves every PWM flag alone as well. *)
Theorem flush_leaves_other_devices (addr index : Z) (w : world) :
  wf w -> 0 <= index < IS31FL3733_DRIVER_COUNT ->
  (exists w' tr,
      is31fl3733_update_pwm_buffers addr index w = Ok tt w' tr
      /\ g_pwm_buffer w' = g_pwm_buffer w
      /\ g_led_control_registers w' = g_led_control_registers w
      /\ forall d, d <> index ->
           pwm_dirty w' d = pwm_dirty w d
           /\ control_dirty w' d = control_dirty w d)
  /\ (exists w' tr,
         is31fl3733_update_led_control_registers addr index w = Ok tt w' tr
         /\ g_pwm_buffer w' = g_pwm_buffer w
         /\ g_led_control_registers w' = g_led_control_registers w
         /\ g_pwm_buffer_update_required w' = g_pwm_buffer_update_required w
         /\ forall d, d <> index -> control_dirty w' d = control_dirty w d).
Proof.
  intros Hwf Hd. split.
  - destruct (update_pwm_buffers_clears addr index w Hwf Hd)
      as (w' & tr & Heq & _ & _ & _ & Hp & Hc & Hother).
    exists w', tr. auto.
  - destruct (update_led_control_registers_clears addr index w Hwf Hd)
      as (w' & tr & Heq & _ & _ & _ & Hp & Hc & Hpr & Hother).
    exists w', tr. auto.
Qed.

(** X12: the compensation works end to end.  When a PWM flush runs and a
    transfer of its block write is not acknowledged, the next control flush
    of that device rewrites all 24 control registers from the shadow page,
    also when no control bit was changed, and clears the control flag. *)
Theorem failed_pwm_flush_forces_control_flush (addr index : Z) (w : world) :
  wf w -> 0 <= index < IS31FL3733_DRIVER_COUNT ->
  pwm_dirty w index = Some true ->
  exists w1 tr1,
    is31fl3733_update_pwm_buffers addr index w = Ok tt w1 tr1
    /\ (Exists (fun c => length (tx_data c) = 17%nat /\ tx_status c <> 0) tr1 ->
        exists row st1 st2 tr2 w2,
          index_get (g_led_control_registers w) index = Some row
          /\ is31fl3733_update_led_control_registers addr index w1
             = Ok tt w2
                 (select_page addr IS31FL3733_PAGE_LEDCONTROL st1 st2 ++ tr2)
          /\ register_writes addr 0 row tr2
          /\ length tr2 = 24%nat
          /\ control_dirty w2 index = Some false).
Proof.
  intros Hwf Hd Hflag.
  destruct (update_pwm_buffers_clears addr index w Hwf Hd)
    as (w1 & tr1 & Heq & Hwf1 & _ & _ & _ & Hctl1 & _).
  destruct (update_pwm_buffers_dirty addr index w Hwf Hd Hflag)
    as (row & st1 & st2 & r & tr & w1' & Hrow & Hlen & Heq' & Hblock & Hbus
        & Htwi & Hpwm & Hctl & Hpreq & Hcreq).
  rewrite Heq in Heq'. injection Heq' as <- ->.
  exists w1, (select_page addr IS31FL3733_PAGE_PWM st1 st2 ++ tr).
  split; [exact Heq|]. intros Hfail.
  assert (Hr : r = false).
  { destruct r; [|reflexivity]. exfalso.
    apply Exists_app in Hfail as [Hsel|Hfail].
    - apply Exists_exists in Hsel as (c & Hc & Hlen17 & _).
      pose proof (select_page_short addr IS31FL3733_PAGE_PWM st1 st2) as Hs.
      rewrite Forall_forall in Hs. specialize (Hs c Hc). lia.
    - apply block_write_true in Hblock. subst tr.
      apply Exists_exists in Hfail as (c & Hc & _ & Hst).
      apply list_elem_of_fmap in Hc as (k & -> & _). apply Hst. reflexivity. }
  subst r.
  assert (Hdirty : control_dirty w1 index = Some true).
  { unfold control_dirty. rewrite Hcreq. apply index_get_insert.
    rewrite (wf_control_required _ Hwf). lia. }
  destruct (update_led_control_registers_dirty addr index w1 Hwf1 Hd Hdirty)
    as (row2 & s1 & s2 & tr2 & w2 & Hrow2 & Hlen2 & Heq2 & Hwrites & _ & _
        & _ & _ & _ & Hcreq2).
  exists row2, s1, s2, tr2, w2.
  split; [rewrite <- Hctl; exact Hrow2|]. split; [exact Heq2|].
  split; [exact Hwrites|]. split.
  - rewrite (register_writes_length _ _ _ _ Hwrites). exact Hlen2.
  - unfold control_dirty. rewrite Hcreq2. apply index_get_insert.
    rewrite Hcreq, length_insert, (wf_control_required _ Hwf). lia.
Qed.

(** X13: neither flush checks its device index.  On an index at or beyond
    [IS31FL3733_DRIVER_COUNT] the first thing either does is read its
    update-required flag outside the flag array: the call faults with
    [OutOfBounds] before any transfer. *)
Theorem flush_unchecked_index (addr index : Z) (w : world) :
  wf w -> IS31FL3733_DRIVER_COUNT <= index -> 0 <= index ->
  is31fl3733_update_pwm_buffers addr index w = Fault OutOfBounds
  /\ is31fl3733_update_led_control_registers addr index w = Fault OutOfBounds.
Proof.
  intros Hwf Hge Hpos. split.
  - unfold is31fl3733_update_pwm_buffers. apply bind_Fault.
    rewrite pwm_required_load_eq. unfold pwm_dirty.
    rewrite index_get_None; [reflexivity|].
    rewrite (wf_pwm_required _ Hwf). lia.
  - unfold is31fl3733_update_led_control_registers. apply bind_Fault.
    rewrite control_required_load_eq. unfold control_dirty.
    rewrite index_get_None; [reflexivity|].
    rewrite (wf_control_required _ Hwf). lia.
Qed.

(** ** The shape of every transfer *)

Lemma register_call_driver (addr reg data st : Z) :
  driver_call addr (register_call addr reg data st).
Proof. split; [reflexivity|]. split; [reflexivity|]. left. reflexivity. Qed.

Lemma select_page_driver (addr page st1 st2 : Z) :
  Forall (driver_call addr) (select_page addr page st1 st2).
Proof. repeat constructor. Qed.

Lemma register_writes_driver (addr i : Z) row tr :
  register_writes addr i row tr -> Forall (driver_call addr) tr.
Proof.
  induction 1; constructor; [apply register_call_driver | assumption].
Qed.

Lemma block_write_driver (addr : Z) (pwm_buffer : list Z) j n r tr :
  length pwm_buffer = 192%nat -> (j + n <= 12)%nat ->
  block_write addr pwm_buffer j n r tr -> Forall (driver_call addr) tr.
Proof.
  intros Hbuf Hjn H.
  induction H as [j|j n st Hst|j n r tr H IH].
  - constructor.
  - constructor; [|constructor].
    split; [reflexivity|]. split; [reflexivity|]. right.
    apply chunk_call_length; [exact Hbuf | lia].
  - constructor; [|apply IH; lia].
    split; [reflexivity|]. split; [reflexivity|]. right.
    apply chunk_call_length; [exact Hbuf | lia].
Qed.

(** X14: every transfer that [is31fl3733_init] and the two flushes make
    goes to the device's write address [addr << 1] (as 8 bits), with the
    driver's timeout, and carries either 2 bytes (a register and its value)
    or 17 bytes (a register and a 16-byte chunk): never more than the
    20-byte transfer buffer holds.  The statuses in the trace are the
    answers of the bus, taken in order. *)
Theorem driver_transfers_shape (addr sync index : Z) (w : world) :
  wf w -> 0 <= index < IS31FL3733_DRIVER_COUNT ->
  (exists w' tr,
      is31fl3733_init addr sync w = Ok tt w' tr
      /\ Forall (driver_call addr) tr /\ bus_trace (bus w) tr (bus w'))
  /\ (exists w' tr,
         is31fl3733_update_pwm_buffers addr index w = Ok tt w' tr
         /\ Forall (driver_call addr) tr /\ bus_trace (bus w) tr (bus w'))
  /\ (exists w' tr,
         is31fl3733_update_led_control_registers addr index w = Ok tt w' tr
         /\ Forall (driver_call addr) tr /\ bus_trace (bus w) tr (bus w')).
Proof.
  intros Hwf Hd. split; [|split].
  - destruct (init_spec addr sync w Hwf)
      as (w' & s1 & s2 & s3 & s4 & s5 & s6 & s7 & s8 & s9 & s10 & tr0 & tr1
          & Heq & R0 & R1 & _ & _ & tr & Hbus & ->).
    eexists. eexists. split; [exact Heq|]. split; [|exact Hbus].
    repeat (apply Forall_app; split);
      eauto using select_page_driver, register_writes_driver.
    repeat constructor.
  - destruct (pwm_dirty_in_range w index Hwf Hd) as [[|] Hflag].
    + destruct (update_pwm_buffers_dirty addr index w Hwf Hd Hflag)
        as (row & st1 & st2 & r & tr & w' & Hrow & Hlen & Heq & Hblock
            & Hbus & _).
      eexists. eexists. split; [exact Heq|]. split; [|exact Hbus].
      apply Forall_app. split; [apply select_page_driver|].
      apply (block_write_driver addr row 0 12 r tr Hlen); [lia|exact Hblock].
    + exists w, []. split; [apply update_pwm_buffers_clean; exact Hflag|].
      split; constructor.
  - destruct (control_dirty_in_range w index Hwf Hd) as [[|] Hflag].
    + destruct (update_led_control_registers_dirty addr index w Hwf Hd Hflag)
        as (row & st1 & st2 & tr & w' & Hrow & Hlen & Heq & Hwrites
            & Hbus & _).
      eexists. eexists. split; [exact Heq|]. split; [|exact Hbus].
      apply Forall_app. split; [apply select_page_driver|].
      exact (register_writes_driver _ _ _ _ Hwrites).
    + exists w, [].
      split; [apply update_led_control_registers_clean; exact Hflag|].
      split; constructor.
Qed.

(** ** From a setter to the wire *)

(** X15: a value set with [is31fl3733_set_value] reaches the wire.  On a
    bus that acknowledges every transfer, when the slot of the LED held
    another value, the flush of the LED's device that follows sends, after
    the page selection, 12 transfers whose data bytes, put end to end, hold
    the value at the LED's register offset; it ends with the PWM flag of the
    device clear. *)
Theorem set_value_reaches_wire (addr i value : Z) (w : world) :
  always_succeeds -> board_ok -> wf w -> 0 <= i < LED_MATRIX_LED_COUNT ->
  forall led,
    index_get g_is31_leds i = Some led ->
    pwm_at w (driver led) (v led) <> Some value ->
    exists w1 w2 tr,
      is31fl3733_set_value i value w = Ok tt w1 []
      /\ is31fl3733_update_pwm_buffers addr (driver led) w1
         = Ok tt w2 (select_page addr IS31FL3733_PAGE_PWM 0 0 ++ tr)
      /\ length tr = 12%nat
      /\ index_get (wire_page tr) (v led) = Some value
      /\ pwm_dirty w2 (driver led) = Some false.
Proof.
  intros Hok Hb Hwf Hi led Hled Hne.
  destruct (table_entry i Hb Hi) as (led' & Hled' & Hd & Hv).
  rewrite Hled in Hled'. injection Hled' as <-.
  destruct (set_value_effect w i value led Hb Hwf Hi Hled)
    as (w1 & Hset & Hwf1 & Hat & Hdirty & _).
  specialize (Hdirty Hne).
  destruct (update_pwm_buffers_dirty addr (driver led) w1 Hwf1 Hd Hdirty)
    as (row & st1 & st2 & r & tr & w2 & Hrow & Hlen & Heq & Hblock & Hbus
        & _ & _ & _ & Hpreq & _).
  apply (bus_trace_acked _ _ _ Hok) in Hbus.
  apply Forall_app in Hbus as [Hsel Hack].
  apply Forall_cons in Hsel as [Hst1 Hsel].
  apply Forall_cons in Hsel as [Hst2 _].
  unfold acked in Hst1, Hst2. simpl in Hst1, Hst2. subst st1 st2.
  rewrite (block_write_acked _ _ _ _ _ _ Hblock Hack) in Hblock.
  apply block_write_true in Hblock.
  exists w1, w2, tr. split; [exact Hset|]. split; [exact Heq|].
  split; [|split].
  - rewrite Hblock, length_map, length_seq. reflexivity.
  - rewrite Hblock, wire_page_chunks, take_ge by lia.
    specialize (Hat (driver led) (v led)).
    rewrite decide_True in Hat by auto.
    unfold pwm_at in Hat. rewrite Hrow in Hat. exact Hat.
  - unfold pwm_dirty. rewrite Hpreq. apply index_get_insert.
    rewrite (wf_pwm_required _ Hwf1). lia.
Qed.

(** ** Repeated transfers *)

Lemma transmit_once (addr len : Z) (w : world) :
  0 <= len <= Z.of_nat (length (g_twi_transfer_buffer w)) ->
  bind get
    (fun w0 =>
       bind (i2c_transmit (Z.shiftl addr 1) (g_twi_transfer_buffer w0) len
               IS31FL3733_I2C_TIMEOUT)
         (fun st => if negb (st =? 0) then ret (Some false) else ret None)) w
  = Ok (if snd (bus_transmit (bus w) (uint8 (Z.shiftl addr 1))
                  (take (Z.to_nat len) (g_twi_transfer_buffer w))
                  IS31FL3733_I2C_TIMEOUT) =? 0
        then None else Some false)
      (with_bus w
         (fst (bus_transmit (bus w) (uint8 (Z.shiftl addr 1))
                 (take (Z.to_nat len) (g_twi_transfer_buffer w))
                 IS31FL3733_I2C_TIMEOUT)))
      [ {| tx_address := uint8 (Z.shiftl addr 1);
           tx_data := take (Z.to_nat len) (g_twi_transfer_buffer w);
           tx_timeout := IS31FL3733_I2C_TIMEOUT;
           tx_status :=
             snd (bus_transmit (bus w) (uint8 (Z.shiftl addr 1))
                    (take (Z.to_nat len) (g_twi_transfer_buffer w))
                    IS31FL3733_I2C_TIMEOUT) |} ].
Proof.
  intros Hlen. unfold bind, get, i2c_transmit.
  rewrite bool_decide_eq_true_2 by exact Hlen.
  destruct (snd _ =? 0); reflexivity.
Qed.

Lemma transmit_twi_repeated_loop (n addr len : Z) (payload : list Z) :
  0 <= n < 256 ->
  forall (m i fuel : nat) (w : world),
    Z.of_nat (i + m) = n -> (m < fuel)%nat ->
    0 <= len <= Z.of_nat (length (g_twi_transfer_buffer w)) ->
    take (Z.to_nat len) (g_twi_transfer_buffer w) = payload ->
    exists r w' tr,
      for_loop fuel (Z.of_nat i) (fun i => i <? n) (fun i => uint8 (i + 1))
        (fun _ =>
           bind get
             (fun w0 =>
                bind (i2c_transmit (Z.shiftl addr 1)
                        (g_twi_transfer_buffer w0) len IS31FL3733_I2C_TIMEOUT)
                  (fun st =>
                     if negb (st =? 0) then ret (Some false) else ret None)))
        w
      = Ok r w' tr
      /\ transfers w tr w'
      /\ g_twi_transfer_buffer w' = g_twi_transfer_buffer w
      /\ Forall (fun c => tx_address c = uint8 (Z.shiftl addr 1)
                          /\ tx_data c = payload
                          /\ tx_timeout c = IS31FL3733_I2C_TIMEOUT) tr
      /\ ((r = None /\ length tr = m /\ Forall acked tr)
          \/ (r = Some false
              /\ (length tr <= m)%nat
              /\ exists tr0 c, tr = tr0 ++ [c] /\ Forall acked tr0
                               /\ ~ acked c)).
Proof.
  intros Hn. induction m as [|m IH]; intros i fuel w Hi Hfuel Hlen Hpay;
    (destruct fuel as [|fuel]; [lia|]); rewrite for_loop_S.
  - rewrite (proj2 (Z.ltb_ge (Z.of_nat i) n)) by lia.
    exists None, w, []. split; [reflexivity|].
    split; [apply transfers_refl|]. split; [reflexivity|].
    split; [constructor|]. left. auto.
  - rewrite (proj2 (Z.ltb_lt (Z.of_nat i) n)) by lia.
    rewrite (bind_Ok _ _ _ _ _ _ (transmit_once addr len w Hlen)).
    rewrite Hpay.
    set (r := bus_transmit (bus w) (uint8 (Z.shiftl addr 1)) payload
                IS31FL3733_I2C_TIMEOUT).
    set (c := {| tx_address := uint8 (Z.shiftl addr 1); tx_data := payload;
                 tx_timeout := IS31FL3733_I2C_TIMEOUT;
                 tx_status := snd r |}).
    assert (Hc : transfers w [c] (with_bus w (fst r))).
    { split; [split; reflexivity|].
      constructor; [reflexivity | constructor]. }
    destruct (snd r =? 0) eqn:Hst.
    + apply Z.eqb_eq in Hst.
      rewrite uint8_small by lia.
      replace (Z.of_nat i + 1) with (Z.of_nat (S i)) by lia.
      destruct (IH (S i) fuel (with_bus w (fst r)))
        as (r' & w' & tr & Hloop & Htr & Htwi & Hall & Hout);
        [lia | lia | exact Hlen | exact Hpay |].
      rewrite Hloop. exists r', w', (c :: tr).
      split; [reflexivity|].
      split; [exact (transfers_trans _ _ _ _ _ Hc Htr)|].
      split; [exact Htwi|]. split; [constructor; [repeat split|exact Hall]|].
      destruct Hout as [(-> & Hlen' & Hack)|(-> & Hlen' & tr0 & c0 & -> & Hack
                                              & Hnack)].
      * left. split; [reflexivity|]. split; [simpl; lia|].
        constructor; [exact Hst | exact Hack].
      * right. split; [reflexivity|]. split; [simpl in *; lia|].
        exists (c :: tr0), c0. split; [reflexivity|].
        split; [constructor; [exact Hst | exact Hack] | exact Hnack].
    + apply Z.eqb_neq in Hst.
      exists (Some false), (with_bus w (fst r)), [c].
      split; [reflexivity|]. split; [exact Hc|]. split; [reflexivity|].
      split; [repeat constructor|].
      right. split; [reflexivity|]. split; [simpl; lia|].
      exists [], c. split; [reflexivity|]. split; [constructor | exact Hst].
Qed.

(** X16: in a build with a persistence count [n] between 1 and 255, the
    repeated transfer sends the same payload to the same address up to [n]
    times and gives up at the first repetition that is not acknowledged: it
    yields no failure only when all [n] repetitions were acknowledged, and
    otherwise reports failure right after the first unacknowledged one.  It
    is a hedge, not a retry: a failure is never followed by another
    attempt.  The transfer buffer and the shadow state are left alone. *)
Theorem transmit_twi_repeated_fail_fast (n addr len : Z) (w : world) :
  0 < n < 256 ->
  0 <= len <= Z.of_nat (length (g_twi_transfer_buffer w)) ->
  exists r w' tr,
    transmit_twi_repeated n addr len w = Ok r w' tr
    /\ frame w w'
    /\ g_twi_transfer_buffer w' = g_twi_transfer_buffer w
    /\ bus_trace (bus w) tr (bus w')
    /\ Forall (fun c =>
                 tx_address c = uint8 (Z.shiftl addr 1)
                 /\ tx_data c = take (Z.to_nat len) (g_twi_transfer_buffer w)
                 /\ tx_timeout c = IS31FL3733_I2C_TIMEOUT) tr
    /\ ((r = None /\ length tr = Z.to_nat n /\ Forall acked tr)
        \/ (r = Some false
            /\ (length tr <= Z.to_nat n)%nat
            /\ exists tr0 c, tr = tr0 ++ [c] /\ Forall acked tr0
                             /\ ~ acked c)).
Proof.
  intros Hn Hlen.
  destruct (transmit_twi_repeated_loop n addr len
              (take (Z.to_nat len) (g_twi_transfer_buffer w))
              ltac:(lia) (Z.to_nat n) 0 (S (Z.to_nat n)) w)
    as (r & w' & tr & Hloop & [Hframe Hbus] & Htwi & Hall & Hout);
    [lia | lia | exact Hlen | reflexivity |].
  exists r, w', tr. split; [exact Hloop|]. auto.
Qed.

Lemma transmit_twi_branches (addr len : Z) :
  transmit_twi addr len
  = if 0 <? IS31FL3733_I2C_PERSISTENCE
    then transmit_twi_repeated IS31FL3733_I2C_PERSISTENCE addr len
    else bind get
           (fun w =>
              bind (i2c_transmit (Z.shiftl addr 1) (g_twi_transfer_buffer w)
                      len IS31FL3733_I2C_TIMEOUT)
                (fun st =>
                   if negb (st =? 0) then ret (Some false) else ret None)).
Proof. reflexivity. Qed.

Lemma register_writes_lookup (addr i : Z) row tr :
  register_writes addr i row tr ->
  forall (k : nat) (x : Z),
    row !! k = Some x ->
    exists st, tr !! k = Some (register_call addr (i + Z.of_nat k) x st).
Proof.
  induction 1 as [i|i y st row tr H IH]; intros k x Hk.
  - discriminate.
  - destruct k as [|k].
    + injection Hk as ->. exists st. rewrite Z.add_0_r. reflexivity.
    + destruct (IH k x Hk) as [st' Hst']. exists st'. simpl.
      rewrite Hst'. do 2 f_equal. lia.
Qed.

(** X17: a control bit set with [is31fl3733_set_led_control_register]
    reaches the wire on any bus.  In the control flush of the LED's device
    that follows, the register write number [v / 8] (counting from 0 after
    the page selection) is addressed to register [v / 8] and carries a byte
    whose bit [v mod 8] is the requested state. *)
Theorem set_control_reaches_wire (addr i : Z) (enabled : bool) (w : world) :
  board_ok -> wf w -> 0 <= i < LED_MATRIX_LED_COUNT ->
  exists led w1 w2 st1 st2 tr byte st,
    index_get g_is31_leds i = Some led
    /\ is31fl3733_set_led_control_register i enabled w = Ok tt w1 []
    /\ is31fl3733_update_led_control_registers addr (driver led) w1
       = Ok tt w2 (select_page addr IS31FL3733_PAGE_LEDCONTROL st1 st2 ++ tr)
    /\ tr !! Z.to_nat (v led / 8)
       = Some (register_call addr (v led / 8) byte st)
    /\ Z.testbit byte (v led mod 8) = enabled.
Proof.
  intros Hb Hwf Hi.
  destruct (control_slot w i Hb Hwf Hi)
    as (led & row & old & Hled & Hv & Hrow & Hlen & Hold).
  destruct (table_entry i Hb Hi) as (led' & Hled' & Hd & _).
  rewrite Hled in Hled'. injection Hled' as <-.
  pose proof (wf_control_flag_lengths w Hwf) as Hflags.
  assert (Hbit : 0 <= v led mod 8 < 8) by (apply Z.mod_pos_bound; lia).
  pose proof (set_control_eq w i enabled led row old Hled Hv Hrow Hold
                Hflags) as Hset.
  set (byte := if enabled then _ else _) in Hset.
  set (w1 := with_control_required _ _) in Hset.
  assert (Hwf1 : wf w1).
  { apply wf_control_update; [exact Hwf | exact Hlen | apply length_insert]. }
  assert (Hdirty : control_dirty w1 (driver led) = Some true).
  { apply (index_get_insert _ (driver led)). rewrite Hflags.
    eauto using index_get_range. }
  destruct (update_led_control_registers_dirty addr (driver led) w1 Hwf1 Hd
              Hdirty)
    as (row1 & st1 & st2 & tr & w2 & Hrow1 & _ & Heq & Hwrites & _).
  assert (Hrow1' : row1 = <[Z.to_nat (v led / 8) := byte]> row).
  { cbn [w1 g_led_control_registers with_control_required with_control]
      in Hrow1.
    rewrite index_get_insert in Hrow1 by eauto using index_get_range.
    injection Hrow1 as <-. reflexivity. }
  destruct (register_writes_lookup _ _ _ _ Hwrites
              (Z.to_nat (v led / 8)) byte) as [st Hst].
  { rewrite Hrow1'. apply list_lookup_insert_eq.
    apply index_get_range in Hold. lia. }
  exists led, w1, w2, st1, st2, tr, byte, st.
  split; [exact Hled|]. split; [exact Hset|]. split; [exact Heq|]. split.
  - rewrite Hst. do 2 f_equal.
    rewrite Z2Nat.id; [lia|]. apply Z.div_pos; lia.
  - unfold byte. destruct enabled.
    + rewrite set_bit_testbit by lia. rewrite Z.eqb_refl. reflexivity.
    + rewrite clear_bit_testbit by lia. rewrite Z.eqb_refl. reflexivity.
Qed.

(** ** The flags against what the bus confirmed *)












End Proofs.

(** * The theorems at work on concrete boards *)

Section OnReliableBus.

#[local] Existing Instance reliable_bus.
#[local] Existing Instance two_device_board.

(** The bytes on the wire when LED 1 (device 0, register 21) is set to 7
    and device 0 is flushed: unlock, select page 1, then the chunks, of which
    the second carries the 7 at its sixth data byte. *)
Example flush_pwm_wire :
  match is31fl3733_set_value 1 7 reliable_start with
  | Ok _ w1 _ =>
      match is31fl3733_update_pwm_buffers 0x50 0 w1 with
      | Ok _ w2 tr =>
          Some (map tx_address tr, take 4 (map tx_data tr),
                g_pwm_buffer_update_required w2)
      | Fault _ => None
      end
  | Fault _ => None
  end
  = Some (replicate 14 0xA0,
          [ [0xFE; 0xC5]; [0xFD; 0x01];
            [0; 0; 0; 0; 0; 0; 0; 0; 0; 0; 0; 0; 0; 0; 0; 0; 0];
            [16; 0; 0; 0; 0; 0; 7; 0; 0; 0; 0; 0; 0; 0; 0; 0; 0] ],
          [false; false]).
Proof. vm_compute. reflexivity. Qed.

(** [set_value_all] marks every device that has an LED. *)
Example set_value_all_marks :
  match is31fl3733_set_value_all 9 reliable_start with
  | Ok _ w _ =>
      Some (g_pwm_buffer_update_required w, pwm_at w 0 21, pwm_at w 1 191,
            pwm_at w 1 5)
  | Fault _ => None
  end
  = Some ([true; true], Some 9, Some 9, Some 0).
Proof. vm_compute. reflexivity. Qed.

(** Control bits: LED 3 sits at register 191 of device 1, that is bit 7 of
    control byte 23. *)
Example set_control_bit_7 :
  match is31fl3733_set_led_control_register 3 true reliable_start with
  | Ok _ w _ =>
      Some (control_at w 1 23, control_at w 0 23,
            g_led_control_registers_update_required w)
  | Fault _ => None
  end
  = Some (Some 128, Some 0, [false; true]).
Proof. vm_compute. reflexivity. Qed.

Lemma set_value_out_of_range_noop_witness :
  is31fl3733_set_value 4 200 reliable_start = Ok tt reliable_start []
  /\ is31fl3733_set_value (-1) 200 reliable_start
     = Ok tt reliable_start [].
Proof.
  split.
  - apply (set_value_out_of_range_noop reliable_start 4 200).
    right. cbn. lia.
  - apply (set_value_out_of_range_noop reliable_start (-1) 200).
    left. lia.
Defined.

Lemma set_value_then_read_witness :
  exists led w',
    index_get g_is31_leds 3 = Some led
    /\ is31fl3733_set_value 3 200 reliable_start = Ok tt w' []
    /\ pwm_at w' (driver led) (v led) = Some 200.
Proof.
  apply (set_value_then_read reliable_start 3 200);
    [concrete_board | concrete_wf | cbn; lia].
Defined.

Lemma set_value_unchanged_noop_witness :
  exists w1,
    is31fl3733_set_value 1 9 reliable_start = Ok tt w1 []
    /\ is31fl3733_set_value 1 9 w1 = Ok tt w1 [].
Proof.
  destruct (set_value_unchanged_noop reliable_start 1 9)
    as [_ (w1 & H1 & H2 & _)]; [concrete_board | concrete_wf | cbn; lia |].
  exists w1. split; assumption.
Defined.

Lemma set_led_control_register_bit_witness :
  exists w1 w2,
    is31fl3733_set_led_control_register 1 true reliable_start
    = Ok tt w1 []
    /\ control_dirty w1 0 = Some true
    /\ is31fl3733_set_led_control_register 1 true w1 = Ok tt w2 []
    /\ control_dirty w2 0 = Some true
    /\ g_led_control_registers w2 = g_led_control_registers w1.
Proof.
  destruct (set_led_control_register_bit reliable_start 1 true)
    as (led & Hled & _ & Htwice); [concrete_board | concrete_wf | cbn; lia |].
  vm_compute in Hled. injection Hled as <-. exact Htwice.
Defined.

Lemma set_led_control_register_unchecked_witness :
  (exists w',
      is31fl3733_set_led_control_register 3 true reliable_start = Ok tt w' []
      /\ control_at w' 1 23 = Some 128
      /\ control_dirty w' 1 = Some true)
  /\ index_get g_is31_leds 4 = None
  /\ is31fl3733_set_led_control_register 4 true reliable_start
     = Fault OutOfBounds
  /\ is31fl3733_set_value 4 255 reliable_start = Ok tt reliable_start [].
Proof.
  split.
  - destruct (set_led_control_register_unchecked reliable_start 3 true 255)
      as [Hin _]; [concrete_board | concrete_wf | lia |].
    destruct (Hin ltac:(cbn; lia))
      as (led & row & old & new & w' & Hled & Hrow & Hold & Heq & _ & Hat & _
          & _ & _ & Hdirty).
    vm_compute in Hled. injection Hled as <-.
    assert (Heq' := Heq). vm_compute in Heq'. injection Heq' as Hw.
    exists w'. split; [exact Heq|]. rewrite <- Hw. split; reflexivity.
  - apply (set_led_control_register_unchecked reliable_start 4 true 255);
      [concrete_board | concrete_wf | lia | cbn; lia].
Defined.


Lemma write_pwm_buffer_chunks_witness :
  exists w1 w2 tr,
    is31fl3733_set_value 0 128 reliable_start = Ok tt w1 []
    /\ is31fl3733_update_pwm_buffers 0x50 0 w1
       = Ok tt w2 (select_page 0x50 IS31FL3733_PAGE_PWM 0 0 ++ tr)
    /\ tr = map (fun j =>
                   chunk_call 0x50 (<[0%nat := 128]> (replicate 192 0)) j 0)
              (seq 0 12)
    /\ length tr = 12%nat
    /\ pwm_at w2 0 0 = Some 128.
Proof.
  destruct (write_pwm_buffer_chunks 0x50 (replicate 192 0) reliable_start)
    as [_ Hscenario]; [concrete_wf | reflexivity |].
  apply (Hscenario ltac:(intros b a d t; reflexivity) ltac:(concrete_board)
           ltac:(reflexivity) tt).
Defined.

End OnReliableBus.

Section OnFlakyBus.

#[local] Existing Instance flaky_bus.
#[local] Existing Instance two_device_board.

(** The sixth transfer of the flush is the fourth chunk of the block write:
    it is not acknowledged, and the control flag of the device is set. *)
Lemma update_pwm_buffers_block_failure_witness :
  exists w' tr,
    is31fl3733_update_pwm_buffers 0x50 0
      (with_pwm_required flaky_start [true; false])
    = Ok tt w' tr
    /\ length tr = 6%nat
    /\ pwm_dirty w' 0 = Some false
    /\ control_dirty w' 0 = Some true.
Proof.
  destruct (update_pwm_buffers_block_failure 0x50 0
              (with_pwm_required flaky_start [true; false]))
    as (w' & tr & Heq & Hpwm & Hctl);
    [concrete_wf | cbn; lia | reflexivity |].
  exists w', tr. split; [exact Heq|].
  vm_compute in Heq. injection Heq as <- <-.
  split; [reflexivity|]. split; [exact Hpwm|].
  apply Hctl. do 5 apply Exists_cons_tl. apply Exists_cons_hd.
  split; [reflexivity | discriminate].
Defined.

Lemma update_led_control_registers_writes_witness :
  exists w1 w2 row st1 st2 tr,
    is31fl3733_set_led_control_register 3 true flaky_start = Ok tt w1 []
    /\ is31fl3733_update_led_control_registers 0x50 0 w1 = Ok tt w1 []
    /\ is31fl3733_update_led_control_registers 0x52 1 w1
       = Ok tt w2 (select_page 0x52 IS31FL3733_PAGE_LEDCONTROL st1 st2 ++ tr)
    /\ index_get (g_led_control_registers w1) 1 = Some row
    /\ register_writes 0x52 0 row tr
    /\ length tr = 24%nat.
Proof.
  destruct (update_led_control_registers_writes 0x50 0 flaky_start)
    as (_ & _ & Hscenario); [concrete_wf | cbn; lia |].
  apply (Hscenario ltac:(reflexivity) ltac:(concrete_board) 0%nat 3 true
           0x50 0x52 {| driver := 1; v := 191 |});
    reflexivity.
Defined.


End OnFlakyBus.

Section OnDeadBus.

#[local] Existing Instance dead_bus.
#[local] Existing Instance two_device_board.

(** C1 as stated fails: on a bus that acknowledges nothing,
    [set_value 0 128] followed by the flush of device 0 ends with the PWM
    flag of device 0 clear although the shadow page, which now holds 128,
    differs from the last contents the bus confirmed (no transfer of the
    flush was acknowledged). *)
(** On the same bus the block write of a flush stops at its first chunk:
    of the page of device 1, whose last byte was set to 7, only the first 16
    bytes are handed to the bus.  The ledger keeps the page the bus last
    confirmed and records the failure. *)
Example failed_flush_in_ledger :
  match run [SetValue 3 7; FlushPwm 0x52 1] dead_start
          (ledger_of dead_start) with
  | Some (w, h, tr) =>
      Some (map (fun c => length (tx_data c)) tr, pwm_dirty w 1,
            pwm_at w 1 191, confirmed_pwm h 1%nat, failed_pwm h 1%nat,
            failed_pwm h 0%nat)
  | None => None
  end
  = Some ([2; 2; 17]%nat, Some false, Some 7, Some (replicate 192 0), true,
          false).
Proof. vm_compute. reflexivity. Qed.


End OnDeadBus.

(** * More of the driver at work on the concrete board *)

Section MoreOnReliableBus.

#[local] Existing Instance reliable_bus.
#[local] Existing Instance two_device_board.
#[local] Existing Instance example_settings.

(** The last transfer of the bring-up writes 0x51 to the configuration
    register: frequency selector 2, sync 1, shutdown off. *)
Example init_enables_last :
  match is31fl3733_init 0x50 1 reliable_start with
  | Ok _ w tr =>
      Some (length tr, last (map tx_data tr),
            g_pwm_buffer_update_required w)
  | Fault _ => None
  end
  = Some (226%nat, Some [0x00; 0x51], [false; false]).
Proof. vm_compute. reflexivity. Qed.

Lemma write_register_transfer_witness :
  exists st w',
    is31fl3733_write_register 0x50 0xFE 0xC5 reliable_start
    = Ok (st =? 0) w' [register_call 0x50 0xFE 0xC5 st]
    /\ frame reliable_start w'.
Proof.
  destruct (write_register_transfer 0x50 0xFE 0xC5 reliable_start)
    as (st & w' & Heq & _ & _ & Hframe); [concrete_wf|].
  exists st, w'. split; assumption.
Defined.

Lemma init_sequence_witness :
  exists w' tr,
    is31fl3733_init 0x50 1 reliable_start = Ok tt w' tr
    /\ frame reliable_start w'.
Proof.
  destruct (init_sequence 0x50 1 reliable_start)
    as (w' & s1 & s2 & s3 & s4 & s5 & s6 & s7 & s8 & s9 & s10 & tr0 & tr1
        & Heq & _ & _ & _ & Hframe); [concrete_wf|].
  eexists. eexists. split; [exact Heq | exact Hframe].
Defined.

Lemma set_value_one_slot_witness :
  exists w',
    is31fl3733_set_value 1 7 reliable_start = Ok tt w' []
    /\ pwm_at w' 0 21 = Some 7
    /\ pwm_at w' 0 20 = Some 0
    /\ pwm_dirty w' 0 = Some true
    /\ pwm_dirty w' 1 = Some false.
Proof.
  destruct (set_value_one_slot reliable_start 1 7)
    as (led & w' & Hled & Heq & Hat & Hdirty & Hother & _);
    [concrete_board | concrete_wf | cbn; lia |].
  vm_compute in Hled. injection Hled as <-.
  exists w'. split; [exact Heq|]. split; [|split; [|split]].
  - rewrite Hat. reflexivity.
  - rewrite Hat. reflexivity.
  - apply Hdirty. discriminate.
  - rewrite Hother; [reflexivity | discriminate].
Defined.

Lemma set_value_all_fills_witness :
  exists w',
    is31fl3733_set_value_all 9 reliable_start = Ok tt w' []
    /\ pwm_at w' 1 191 = Some 9
    /\ pwm_at w' 1 5 = Some 0.
Proof.
  destruct (set_value_all_fills reliable_start 9)
    as (w' & Heq & Hfilled & Hrest & _); [concrete_board | concrete_wf |].
  exists w'. split; [exact Heq|]. split.
  - apply (Hfilled 3 {| driver := 1; v := 191 |}). reflexivity.
  - rewrite Hrest; [reflexivity|].
    intros i led Hled [Hd Hoff]. apply index_get_Some in Hled as [Hi Hled].
    destruct (Z.to_nat i) as [|[|[|[|n]]]]; cbn in Hled;
      try discriminate; injection Hled as <-; discriminate.
Defined.

Lemma set_value_all_twice_witness :
  exists w1,
    is31fl3733_set_value_all 9 reliable_start = Ok tt w1 []
    /\ is31fl3733_set_value_all 9 w1 = Ok tt w1 [].
Proof.
  apply (set_value_all_twice reliable_start 9); [concrete_board | concrete_wf].
Defined.

Lemma set_led_control_register_last_wins_witness :
  exists w1 w2,
    is31fl3733_set_led_control_register 3 true reliable_start = Ok tt w1 []
    /\ is31fl3733_set_led_control_register 3 false w1 = Ok tt w2 []
    /\ is31fl3733_set_led_control_register 3 false reliable_start
       = Ok tt w2 [].
Proof.
  apply (set_led_control_register_last_wins reliable_start 3 true false);
    [concrete_board | concrete_wf | cbn; lia].
Defined.

Lemma flush_unchecked_index_witness :
  is31fl3733_update_pwm_buffers 0x50 2 reliable_start = Fault OutOfBounds
  /\ is31fl3733_update_led_control_registers 0x50 2 reliable_start
     = Fault OutOfBounds.
Proof.
  apply (flush_unchecked_index 0x50 2 reliable_start);
    [concrete_wf | cbn; lia | lia].
Defined.

Lemma set_value_reaches_wire_witness :
  exists w1 w2 tr,
    is31fl3733_set_value 1 7 reliable_start = Ok tt w1 []
    /\ is31fl3733_update_pwm_buffers 0x50 0 w1
       = Ok tt w2 (select_page 0x50 IS31FL3733_PAGE_PWM 0 0 ++ tr)
    /\ length tr = 12%nat
    /\ index_get (wire_page tr) 21 = Some 7
    /\ pwm_dirty w2 0 = Some false.
Proof.
  apply (set_value_reaches_wire 0x50 1 7 reliable_start
           ltac:(intros b a d t; reflexivity) ltac:(concrete_board)
           ltac:(concrete_wf) ltac:(cbn; lia) {| driver := 0; v := 21 |});
    [reflexivity | discriminate].
Defined.

End MoreOnReliableBus.

Section MoreOnFlakyBus.

#[local] Existing Instance flaky_bus.
#[local] Existing Instance two_device_board.
#[local] Existing Instance example_settings.

(** The sixth transfer times out: five chunks arrive, the sixth does not,
    and the six after it are never sent. *)
Lemma write_pwm_buffer_wire_witness :
  exists w' tr,
    is31fl3733_write_pwm_buffer 0x50 (replicate 192 7) flaky_start
    = Ok false w' tr
    /\ length tr = 6%nat
    /\ wire_page (take 5 tr) = replicate 80 7
    /\ frame flaky_start w'.
Proof.
  destruct (write_pwm_buffer_wire 0x50 (replicate 192 7) flaky_start)
    as (r & w' & tr & Heq & Hframe & _); [concrete_wf | reflexivity |].
  exists w', tr.
  assert (Hrun : is31fl3733_write_pwm_buffer 0x50 (replicate 192 7)
                   flaky_start = Ok r w' tr) by exact Heq.
  vm_compute in Hrun. injection Hrun as <- _ <-.
  split; [exact Heq|]. split; [reflexivity|]. split; [reflexivity|].
  exact Hframe.
Defined.

Lemma update_pwm_buffers_twice_witness :
  exists w1 tr,
    is31fl3733_update_pwm_buffers 0x50 0
      (with_pwm_required flaky_start [true; false])
    = Ok tt w1 tr
    /\ is31fl3733_update_pwm_buffers 0x50 0 w1 = Ok tt w1 [].
Proof.
  apply (update_pwm_buffers_twice 0x50 0x50 0
           (with_pwm_required flaky_start [true; false]));
    [concrete_wf | cbn; lia].
Defined.

Lemma update_led_control_registers_twice_witness :
  exists w1 tr,
    is31fl3733_update_led_control_registers 0x52 1
      (with_control_required flaky_start [false; true])
    = Ok tt w1 tr
    /\ is31fl3733_update_led_control_registers 0x52 1 w1 = Ok tt w1 [].
Proof.
  apply (update_led_control_registers_twice 0x52 0x52 1
           (with_control_required flaky_start [false; true]));
    [concrete_wf | cbn; lia].
Defined.

Lemma flush_leaves_other_devices_witness :
  exists w' tr,
    is31fl3733_update_pwm_buffers 0x50 0
      (with_pwm_required flaky_start [true; true])
    = Ok tt w' tr
    /\ pwm_dirty w' 1 = Some true
    /\ control_dirty w' 1 = Some false.
Proof.
  destruct (flush_leaves_other_devices 0x50 0
              (with_pwm_required flaky_start [true; true]))
    as [(w' & tr & Heq & _ & _ & Hother) _]; [concrete_wf | cbn; lia |].
  exists w', tr. split; [exact Heq|].
  destruct (Hother 1 ltac:(lia)) as [Hp Hc].
  split; [rewrite Hp | rewrite Hc]; reflexivity.
Defined.

Lemma failed_pwm_flush_forces_control_flush_witness :
  exists w1 tr1 w2 tr2,
    is31fl3733_update_pwm_buffers 0x50 0
      (with_pwm_required flaky_start [true; false])
    = Ok tt w1 tr1
    /\ is31fl3733_update_led_control_registers 0x50 0 w1 = Ok tt w2 tr2
    /\ length tr2 = 26%nat
    /\ control_dirty w2 0 = Some false.
Proof.
  destruct (failed_pwm_flush_forces_control_flush 0x50 0
              (with_pwm_required flaky_start [true; false]))
    as (w1 & tr1 & Heq & Hforce); [concrete_wf | cbn; lia | reflexivity |].
  assert (Hrun : is31fl3733_update_pwm_buffers 0x50 0
                   (with_pwm_required flaky_start [true; false])
                 = Ok tt w1 tr1) by exact Heq.
  vm_compute in Hrun. injection Hrun as _ Htr.
  destruct Hforce as (row & st1 & st2 & tr2 & w2 & _ & Heq2 & _ & Hlen & Hc).
  { rewrite <- Htr. do 5 apply Exists_cons_tl. apply Exists_cons_hd.
    split; [reflexivity | discriminate]. }
  exists w1, tr1, w2. eexists. split; [exact Heq|]. split; [exact Heq2|].
  split; [|exact Hc]. rewrite length_app, Hlen. reflexivity.
Defined.

Lemma driver_transfers_shape_witness :
  exists w' tr,
    is31fl3733_init 0x50 0 flaky_start = Ok tt w' tr
    /\ Forall (driver_call 0x50) tr
    /\ bus_trace (bus flaky_start) tr (bus w').
Proof.
  apply (driver_transfers_shape 0x50 0 0 flaky_start);
    [concrete_wf | cbn; lia].
Defined.

(** Three repetitions asked after four transfers were made: the first is
    acknowledged, the second is the bus's sixth transfer and times out, the
    third is never sent. *)
Lemma transmit_twi_repeated_fail_fast_witness :
  exists w' tr,
    transmit_twi_repeated 3 0x50 2 (with_bus flaky_start 4%nat)
    = Ok (Some false) w' tr
    /\ length tr = 2%nat.
Proof.
  destruct (transmit_twi_repeated_fail_fast 3 0x50 2
              (with_bus flaky_start 4%nat))
    as (r & w' & tr & Heq & _); [lia | cbn; lia |].
  assert (Hrun : transmit_twi_repeated 3 0x50 2 (with_bus flaky_start 4%nat)
                 = Ok r w' tr) by exact Heq.
  vm_compute in Hrun. injection Hrun as <- _ <-.
  exists w'. eexists. split; [exact Heq | reflexivity].
Defined.

Lemma set_control_reaches_wire_witness :
  exists w1 w2 st1 st2 tr byte st,
    is31fl3733_set_led_control_register 3 true flaky_start = Ok tt w1 []
    /\ is31fl3733_update_led_control_registers 0x52 1 w1
       = Ok tt w2 (select_page 0x52 IS31FL3733_PAGE_LEDCONTROL st1 st2 ++ tr)
    /\ tr !! 23%nat = Some (register_call 0x52 23 byte st)
    /\ Z.testbit byte 7 = true.
Proof.
  destruct (set_control_reaches_wire 0x52 3 true flaky_start)
    as (led & w1 & w2 & st1 & st2 & tr & byte & st & Hled & Hset & Heq & Hk
        & Hbit); [concrete_board | concrete_wf | cbn; lia |].
  vm_compute in Hled. injection Hled as <-.
  exists w1, w2, st1, st2, tr, byte, st. auto.
Defined.

End MoreOnFlakyBus.
